(** * demo_ep: typed request construction for a REST API client

    A shallow embedding of the query-parameter models, the endpoint
    request objects and the pydantic compatibility layer of the
    repository, followed by the properties established about them.

    Conventions.
    - A Python [str] is a [string] (its UTF-8 bytes, so that
      percent-encoding acts on it byte by byte; [Py.len] counts its
      characters); [None] in an [Optional[str]] attribute is
      [None : option string].
    - A raised exception is the [Raise] case of [Py.result].
    - Attribute assignment on a model goes through [Pydantic.setattr_*],
      which depends on the framework in use (pydantic or the fallback
      classes of pydantic_compat.py) and on the model's [ConfigDict].
    - Objects that are shared by reference live in an explicit store
      (section [Runtime]). *)

From Stdlib Require Import String Ascii List ZArith Lia Bool DecimalString.
From stdpp Require Import base gmap strings list.
Import ListNotations.
Open Scope string_scope.

(* ================================================================== *)
(** ** Python built-ins used by the sources *)
(* ================================================================== *)

Module Py.

Inductive exn : Type :=
| ValueError (msg : string)
| AttributeError (msg : string)
| ValidationError (field : string) (kind : string).

Inductive result (A : Type) : Type :=
| Ok (a : A)
| Raise (e : exn).

Arguments Ok {A} a.
Arguments Raise {A} e.

Definition bind {A B : Type} (r : result A) (k : A -> result B) : result B :=
  match r with
  | Ok a => k a
  | Raise e => Raise e
  end.

Definition raises {A : Type} (r : result A) : bool :=
  match r with
  | Ok _ => false
  | Raise _ => true
  end.

(** [bool(s)] for a string: the empty string is falsy. *)
Definition truthy (s : string) : bool := negb (String.eqb s "").

(** [bool(x)] for an [Optional[str]]: [None] and [""] are falsy. *)
Definition truthy_opt (v : option string) : bool :=
  match v with
  | None => false
  | Some s => truthy s
  end.

(** A byte of the form 10xxxxxx continues a multi-byte UTF-8 character. *)
Definition continuation (c : ascii) : bool :=
  let n := nat_of_ascii c in
  Nat.leb 128 n && Nat.ltb n 192.

(** [len(s)]: the number of characters of [s], that is, of its bytes
    that do not continue a character. *)
Fixpoint len (s : string) : nat :=
  match s with
  | "" => 0%nat
  | String c t => if continuation c then len t else S (len t)
  end.

(** [sep.join(l)]. *)
Fixpoint join (sep : string) (l : list string) : string :=
  match l with
  | [] => ""
  | x :: rest =>
      match rest with
      | [] => x
      | _ :: _ => x ++ sep ++ join sep rest
      end
  end.

(** [l.append(x)]. *)
Definition append {A : Type} (l : list A) (x : A) : list A := (l ++ [x])%list.

(** [str(n)] for an integer. *)
Definition str_of_int (n : Z) : string := NilZero.string_of_int (Z.to_int n).

(** Position of the first occurrence of [sub] in [s], if any, counted
    in bytes; occurrences come in the same order whether counted in
    bytes or in characters. *)
Fixpoint find_from (sub s : string) : option nat :=
  if String.prefix sub s then Some 0%nat
  else match s with
       | "" => None
       | String _ t => option_map S (find_from sub t)
       end.


(** [sub in s]. *)
Definition contains (sub s : string) : bool :=
  match find_from sub s with
  | Some _ => true
  | None => false
  end.

(** [c in s] for a single character. *)
Fixpoint has_char (c : ascii) (s : string) : bool :=
  match s with
  | "" => false
  | String d t => Ascii.eqb c d || has_char c t
  end.

End Py.

Export Py.

(* ================================================================== *)
(** ** urllib.parse (Python standard library) *)
(* ================================================================== *)

Module Urllib.

(** Characters [quote] never escapes: letters, digits and [_.-~]. *)
Definition always_safe (c : ascii) : bool :=
  let n := nat_of_ascii c in
  (Nat.leb 65 n && Nat.leb n 90) || (Nat.leb 97 n && Nat.leb n 122)
  || (Nat.leb 48 n && Nat.leb n 57)
  || Nat.eqb n 95 || Nat.eqb n 46 || Nat.eqb n 45 || Nat.eqb n 126.

Definition hex_digit (n : nat) : ascii :=
  if Nat.ltb n 10 then ascii_of_nat (48 + n) else ascii_of_nat (55 + n).

Definition quote_byte (c : ascii) : string :=
  if always_safe c then String c ""
  else
    let n := nat_of_ascii c in
    String "%" (String (hex_digit (n / 16)) (String (hex_digit (n mod 16)) "")).

(** [quote(s, safe="")]: every byte outside [always_safe] becomes [%XX]
    with upper-case hexadecimal digits; a space becomes [%20]. *)
Fixpoint quote (s : string) : string :=
  match s with
  | "" => ""
  | String c t => quote_byte c ++ quote t
  end.

Definition hex_value (c : ascii) : option nat :=
  let n := nat_of_ascii c in
  if Nat.leb 48 n && Nat.leb n 57 then Some (n - 48)
  else if Nat.leb 65 n && Nat.leb n 70 then Some (n - 55)
  else if Nat.leb 97 n && Nat.leb n 102 then Some (n - 87)
  else None.

(** [unquote(s)]: [%XX] with two hexadecimal digits becomes the byte
    [XX]; a [%] not followed by two hexadecimal digits is kept. *)
Fixpoint unquote (s : string) : string :=
  match s with
  | "" => ""
  | String c t =>
      if Ascii.eqb c "%" then
        match t with
        | String h (String l rest) =>
            match hex_value h, hex_value l with
            | Some a, Some b => String (ascii_of_nat (16 * a + b)) (unquote rest)
            | _, _ => String c (unquote t)
            end
        | _ => String c (unquote t)
        end
      else String c (unquote t)
  end.

End Urllib.

(* ================================================================== *)
(** ** enums.py *)
(* ================================================================== *)

Module VerbEnum.

Inductive t : Type := GET | POST | PUT | DELETE.

Definition value (v : t) : string :=
  match v with
  | GET => "GET"
  | POST => "POST"
  | PUT => "PUT"
  | DELETE => "DELETE"
  end.

End VerbEnum.

Module BooleanStringEnum.

Inductive t : Type := TRUE | FALSE.

Definition value (b : t) : string :=
  match b with
  | TRUE => "true"
  | FALSE => "false"
  end.

End BooleanStringEnum.

(* ================================================================== *)
(** ** pydantic_compat.py: pydantic, or the fallback classes *)
(* ================================================================== *)

Module Pydantic.

(** Which [BaseModel] / [Field] / [ConfigDict] the import yields:
    pydantic's own ([HAS_PYDANTIC = True]) or the fallback definitions
    of the [except ImportError] branch. *)
Inductive framework : Type := Strict | Fallback.

Record ConfigDict : Type := {
  validate_assignment : bool;
  use_enum_values : bool
}.

(** [model_config] of the fallback [BaseModel]. *)
Definition fallback_model_config : ConfigDict :=
  {| validate_assignment := false; use_enum_values := false |}.

(** [Field(default=None, min_length=.., max_length=..)] on an
    [Optional[str]] attribute. *)
Record StrField : Type := {
  field_name : string;
  min_length : option nat;
  max_length : option nat
}.

Definition below (bound : option nat) (n : nat) : bool :=
  match bound with
  | Some m => Nat.ltb n m
  | None => false
  end.

Definition above (bound : option nat) (n : nat) : bool :=
  match bound with
  | Some m => Nat.ltb m n
  | None => false
  end.

(** pydantic's validation of a value offered to an [Optional[str]]
    field: [None] is accepted, a string must respect the bounds. *)
Definition validate_str (f : StrField) (v : option string) : result (option string) :=
  match v with
  | None => Ok None
  | Some s =>
      if below (min_length f) (len s)
      then Raise (ValidationError (field_name f) "string_too_short")
      else if above (max_length f) (len s)
      then Raise (ValidationError (field_name f) "string_too_long")
      else Ok (Some s)
  end.

(** [obj.<field> = v].  pydantic validates when the model's config has
    [validate_assignment]; the fallback [BaseModel] defines no
    [__setattr__], so the value is stored as given. *)
Definition setattr_str (fw : framework) (cfg : ConfigDict) (f : StrField)
  (v : option string) : result (option string) :=
  match fw with
  | Fallback => Ok v
  | Strict => if validate_assignment cfg then validate_str f v else Ok v
  end.

(** What an attribute annotated [BooleanStringEnum] may hold: a member
    of the enum, or a plain string. *)
Inductive flag : Type :=
| FEnum (b : BooleanStringEnum.t)
| FStr (s : string).

(** [x.value if hasattr(x, 'value') else x], formatted in an f-string:
    an enum member has [.value], a plain [str] has not. *)
Definition flag_text (v : flag) : string :=
  match v with
  | FEnum b => BooleanStringEnum.value b
  | FStr s => s
  end.

(** [bool(x)]: [BooleanStringEnum] derives from [str], so a member is
    truthy iff its value is non-empty. *)
Definition flag_truthy (v : flag) : bool := truthy (flag_text v).

(** pydantic's validation of a value offered to a [BooleanStringEnum]
    field: a member, or a string equal to a member's value. *)
Definition validate_flag (name : string) (v : flag) : result BooleanStringEnum.t :=
  match v with
  | FEnum b => Ok b
  | FStr s =>
      if String.eqb s "true" then Ok BooleanStringEnum.TRUE
      else if String.eqb s "false" then Ok BooleanStringEnum.FALSE
      else Raise (ValidationError name "enum")
  end.

(** [obj.<flag> = v].  With [use_enum_values] pydantic stores the
    member's value instead of the member. *)
Definition setattr_flag (fw : framework) (cfg : ConfigDict) (name : string)
  (v : flag) : result flag :=
  match fw with
  | Fallback => Ok v
  | Strict =>
      if validate_assignment cfg then
        bind (validate_flag name v) (fun b =>
          Ok (if use_enum_values cfg then FStr (BooleanStringEnum.value b) else FEnum b))
      else Ok v
  end.

End Pydantic.

Export Pydantic.

(* ================================================================== *)
(** ** endpoint_mixins.py: the reusable identifier fields *)
(* ================================================================== *)

Module EndpointMixins.

Definition FabricNameMixin : StrField :=
  {| field_name := "fabric_name"; min_length := Some 1%nat; max_length := Some 64%nat |}.

Definition SwitchSerialNumberMixin : StrField :=
  {| field_name := "switch_sn"; min_length := Some 1%nat; max_length := None |}.

Definition NetworkNameMixin : StrField :=
  {| field_name := "network_name"; min_length := Some 1%nat; max_length := Some 64%nat |}.

Definition VrfNameMixin : StrField :=
  {| field_name := "vrf_name"; min_length := Some 1%nat; max_length := Some 64%nat |}.

Definition LinkUuidMixin : StrField :=
  {| field_name := "link_uuid"; min_length := Some 1%nat; max_length := None |}.

Definition LoginIdMixin : StrField :=
  {| field_name := "login_id"; min_length := Some 1%nat; max_length := None |}.

End EndpointMixins.

(** [ConfigDict(validate_assignment=True)]. *)
Definition COMMON_CONFIG : ConfigDict :=
  {| validate_assignment := true; use_enum_values := false |}.

(** [ConfigDict(validate_assignment=True, use_enum_values=True)]. *)
Definition ENUM_CONFIG : ConfigDict :=
  {| validate_assignment := true; use_enum_values := true |}.

(* ================================================================== *)
(** ** endpoint_query_params.py *)
(* ================================================================== *)

Module FabricConfigDeployQueryParams.

Record t : Type := {
  force_show_run : flag;
  incl_all_msd_switches : flag
}.

Definition model_config : ConfigDict := ENUM_CONFIG.

(** Both fields default to [BooleanStringEnum.FALSE]. *)
Definition default : t :=
  {| force_show_run := FEnum BooleanStringEnum.FALSE;
     incl_all_msd_switches := FEnum BooleanStringEnum.FALSE |}.

Definition to_query_string (self : t) : string :=
  let params := [] in
  let params := append params ("forceShowRun=" ++ flag_text (force_show_run self)) in
  let params :=
    append params ("inclAllMSDSwitches=" ++ flag_text (incl_all_msd_switches self)) in
  join "&" params.

Definition set_force_show_run (fw : framework) (self : t) (v : flag) : result t :=
  bind (setattr_flag fw model_config "force_show_run" v) (fun x =>
    Ok {| force_show_run := x; incl_all_msd_switches := incl_all_msd_switches self |}).

Definition set_incl_all_msd_switches (fw : framework) (self : t) (v : flag) : result t :=
  bind (setattr_flag fw model_config "incl_all_msd_switches" v) (fun x =>
    Ok {| force_show_run := force_show_run self; incl_all_msd_switches := x |}).

End FabricConfigDeployQueryParams.

Module FabricConfigPreviewQueryParams.

Record t : Type := {
  force_show_run : flag;
  show_brief : flag
}.

Definition default : t :=
  {| force_show_run := FEnum BooleanStringEnum.FALSE;
     show_brief := FEnum BooleanStringEnum.FALSE |}.

Definition to_query_string (self : t) : string :=
  let params := [] in
  let params :=
    if flag_truthy (force_show_run self)
    then append params ("forceShowRun=" ++ flag_text (force_show_run self))
    else params in
  let params :=
    if flag_truthy (show_brief self)
    then append params ("showBrief=" ++ flag_text (show_brief self))
    else params in
  join "&" params.

End FabricConfigPreviewQueryParams.

Module LinkByUuidQueryParams.

Record t : Type := {
  source_cluster_name : option string;
  destination_cluster_name : option string
}.

Definition default : t :=
  {| source_cluster_name := None; destination_cluster_name := None |}.

Definition to_query_string (self : t) : string :=
  let params := [] in
  let params :=
    match source_cluster_name self with
    | Some v => if truthy v then append params ("sourceClusterName=" ++ v) else params
    | None => params
    end in
  let params :=
    match destination_cluster_name self with
    | Some v => if truthy v then append params ("destinationClusterName=" ++ v) else params
    | None => params
    end in
  join "&" params.

End LinkByUuidQueryParams.

Module NetworkNamesQueryParams.

Record t : Type := { network_names : option string }.

Definition default : t := {| network_names := None |}.

Definition to_query_string (self : t) : string :=
  let params := [] in
  let params :=
    match network_names self with
    | Some v => if truthy v then append params ("network-names=" ++ v) else params
    | None => params
    end in
  join "&" params.

End NetworkNamesQueryParams.

Module VrfNamesQueryParams.

Record t : Type := { vrf_names : option string }.

Definition default : t := {| vrf_names := None |}.

Definition to_query_string (self : t) : string :=
  let params := [] in
  let params :=
    match vrf_names self with
    | Some v => if truthy v then append params ("vrf-names=" ++ v) else params
    | None => params
    end in
  join "&" params.

End VrfNamesQueryParams.

(* ================================================================== *)
(** ** base_paths.py *)
(* ================================================================== *)

Module BasePath.

Definition NDFC_API : string := "/appcenter/cisco/ndfc/api".

(** Modelled from the spec: base_paths.py is not among the sources; the
    path-template collaborator "joins an API root constant with an
    arbitrary number of path segments using / separators, with no
    segment validation or escaping".  The roots and the fixed segments
    are the ones the callers and test_base_paths.py show. *)
Definition api (segments : list string) : string :=
  join "/" (NDFC_API :: segments).

Definition v1 (segments : list string) : string :=
  api ("v1" :: segments).

Definition onemanage (segments : list string) : string :=
  v1 ("onemanage" :: segments).

Definition onemanage_fabrics (segments : list string) : string :=
  onemanage ("fabrics" :: segments).

Definition onemanage_links (segments : list string) : string :=
  onemanage ("links" :: segments).

Definition onemanage_links_fabrics (segments : list string) : string :=
  onemanage_links ("fabrics" :: segments).

Definition onemanage_top_down (segments : list string) : string :=
  onemanage ("top-down" :: segments).

Definition onemanage_top_down_fabrics (segments : list string) : string :=
  onemanage_top_down ("fabrics" :: segments).

Definition nd_infra_aaa (segments : list string) : string :=
  join "/" ("/api/v1/infra/aaa" :: segments).

End BasePath.

(* ================================================================== *)
(** ** query_params.py *)
(* ================================================================== *)

Module QueryParams.

(** Modelled from the spec: query_params.py is not among the sources.
    Every parameter model answers [is_empty()] and
    [to_query_string(url_encode)]; a model without per-call encoding
    ignores the flag. *)
Class Model (A : Type) : Type := {
  is_empty : A -> bool;
  to_query_string : A -> bool -> string
}.

(** A parameter model of any type, as the aggregate holds it. *)
Inductive any : Type :=
| Pack (A : Type) (M : Model A) (a : A).

Definition any_is_empty (m : any) : bool :=
  match m with
  | Pack _ _ a => is_empty a
  end.

Definition any_to_query_string (m : any) (url_encode : bool) : string :=
  match m with
  | Pack _ _ a => to_query_string a url_encode
  end.

(** Modelled from the spec: one composed [key=value] pair; with
    [url_encode] the form-urlencoded rules are applied to the pair
    (key and value escaped, spaces as %20), otherwise the pair is
    emitted byte for byte. *)
Definition pair_text (url_encode : bool) (key value : string) : string :=
  if url_encode then Urllib.quote key ++ "=" ++ Urllib.quote value
  else key ++ "=" ++ value.

(** Modelled from the spec: emptiness of an endpoint model is "no field
    differs from its baseline AND no field is in the
    required-always-present set". *)
Definition endpoint_is_empty (always_present : list string) (differs : bool) : bool :=
  negb differs && match always_present with [] => true | _ :: _ => false end.

End QueryParams.

Export QueryParams.

Module LuceneQueryParams.

(** Modelled from the spec: the filter-style model (query_params.py is
    not among the sources): Lucene filter, pagination, sort and field
    selection, all unset by default, in this declaration order. *)
Record t : Type := {
  filter : option string;
  max : option Z;
  offset : option Z;
  sort : option string;
  fields : option string
}.

Definition default : t :=
  {| filter := None; max := None; offset := None; sort := None; fields := None |}.

(** The declared fields with their current values as text. *)
Definition items (self : t) : list (string * option string) :=
  [ ("filter", filter self);
    ("max", option_map str_of_int (max self));
    ("offset", option_map str_of_int (offset self));
    ("sort", sort self);
    ("fields", fields self) ].

(** Modelled from the spec: empty iff every field is unset. *)
Definition is_empty (self : t) : bool :=
  forallb (fun kv => match snd kv with None => true | Some _ => false end) (items self).

Fixpoint emit (url_encode : bool) (kvs : list (string * option string)) : list string :=
  match kvs with
  | [] => []
  | (k, Some v) :: rest => pair_text url_encode k v :: emit url_encode rest
  | (_, None) :: rest => emit url_encode rest
  end.

(** Modelled from the spec: fields are emitted in declaration order iff
    their value is not the unset sentinel, joined with &. *)
Definition to_query_string (self : t) (url_encode : bool) : string :=
  join "&" (emit url_encode (items self)).

End LuceneQueryParams.

#[export] Instance LuceneQueryParams_Model : Model LuceneQueryParams.t :=
  {| is_empty := LuceneQueryParams.is_empty;
     to_query_string := LuceneQueryParams.to_query_string |}.

(** Modelled from the spec: the always-present fields of the
    config-deploy model are its two flags, so the base class's
    emptiness check never holds for it; its own [to_query_string]
    takes no encoding argument. *)
#[export] Instance FabricConfigDeployQueryParams_Model :
  Model FabricConfigDeployQueryParams.t :=
  {| is_empty := fun self =>
       endpoint_is_empty ["force_show_run"; "incl_all_msd_switches"]
         (negb (String.eqb (flag_text (FabricConfigDeployQueryParams.force_show_run self)) "false")
          || negb (String.eqb
                     (flag_text (FabricConfigDeployQueryParams.incl_all_msd_switches self))
                     "false"));
     to_query_string := fun self _ => FabricConfigDeployQueryParams.to_query_string self |}.

Module CompositeQueryParams.

(** Modelled from the spec: an ordered sequence of parameter models
    (query_params.py is not among the sources). *)
Record t : Type := { groups : list any }.

(** [CompositeQueryParams()]. *)
Definition new : t := {| groups := [] |}.

(** [add(model)]: appends and returns the aggregate. *)
Definition add (self : t) (model : any) : t :=
  {| groups := (groups self ++ [model])%list |}.

(** [clear()]. *)
Definition clear (self : t) : t := {| groups := [] |}.

(** True iff every registered model is empty, or none is registered. *)
Definition is_empty (self : t) : bool := forallb any_is_empty (groups self).

(** The loop of [to_query_string]: models in order, empty ones
    skipped, non-empty fragments collected. *)
Fixpoint collect (url_encode : bool) (ms : list any) : list string :=
  match ms with
  | [] => []
  | m :: rest =>
      if any_is_empty m then collect url_encode rest
      else
        let fragment := any_to_query_string m url_encode in
        if truthy fragment then fragment :: collect url_encode rest
        else collect url_encode rest
  end.

Definition to_query_string (self : t) (url_encode : bool) : string :=
  join "&" (collect url_encode (groups self)).

End CompositeQueryParams.

(* ================================================================== *)
(** ** endpoints.py and the onemanage_*_endpoints.py modules

    One module per endpoint class: the attributes the class declares
    (identifier mixins and [query_params]), the instance as constructed
    without arguments, assignment to each identifier, and the [path]
    and [verb] properties. *)
(* ================================================================== *)

Module EpOneManageFabricConfigDeploy.

Record t : Type := {
  fabric_name : option string;
  query_params : FabricConfigDeployQueryParams.t
}.

Definition model_config : ConfigDict := COMMON_CONFIG.

Definition new : t :=
  {| fabric_name := None;
     query_params := FabricConfigDeployQueryParams.default |}.

Definition set_fabric_name (fw : framework) (self : t) (v : option string) : result t :=
  bind (setattr_str fw model_config EndpointMixins.FabricNameMixin v) (fun x =>
    Ok {| fabric_name := x; query_params := query_params self |}).

Definition path (self : t) : result string :=
  match fabric_name self with
  | None => Raise (ValueError "fabric_name must be set before accessing path")
  | Some fabric_name =>
      let base_path := BasePath.onemanage_fabrics [fabric_name; "config-deploy"] in
      let query_string := FabricConfigDeployQueryParams.to_query_string (query_params self) in
      if truthy query_string then Ok (base_path ++ "?" ++ query_string)
      else Ok base_path
  end.

Definition verb (self : t) : VerbEnum.t := VerbEnum.POST.

End EpOneManageFabricConfigDeploy.

Module EpOneManageFabricConfigDeploySwitch.

Record t : Type := {
  fabric_name : option string;
  switch_sn : option string;
  query_params : FabricConfigDeployQueryParams.t
}.

Definition model_config : ConfigDict := ENUM_CONFIG.

Definition new : t :=
  {| fabric_name := None;
     switch_sn := None;
     query_params := FabricConfigDeployQueryParams.default |}.

Definition set_fabric_name (fw : framework) (self : t) (v : option string) : result t :=
  bind (setattr_str fw model_config EndpointMixins.FabricNameMixin v) (fun x =>
    Ok {| fabric_name := x; switch_sn := switch_sn self; query_params := query_params self |}).

Definition set_switch_sn (fw : framework) (self : t) (v : option string) : result t :=
  bind (setattr_str fw model_config EndpointMixins.SwitchSerialNumberMixin v) (fun x =>
    Ok {| fabric_name := fabric_name self; switch_sn := x; query_params := query_params self |}).

Definition path (self : t) : result string :=
  match fabric_name self with
  | None => Raise (ValueError "fabric_name must be set before accessing path")
  | Some fabric_name =>
      match switch_sn self with
      | None => Raise (ValueError "switch_sn must be set before accessing path")
      | Some switch_sn =>
          let base_path := BasePath.onemanage_fabrics [fabric_name; "config-deploy"; switch_sn] in
          let query_string := FabricConfigDeployQueryParams.to_query_string (query_params self) in
          if truthy query_string then Ok (base_path ++ "?" ++ query_string)
          else Ok base_path
      end
  end.

Definition verb (self : t) : VerbEnum.t := VerbEnum.POST.

End EpOneManageFabricConfigDeploySwitch.

Module EpOneManageFabricConfigPreview.

Record t : Type := {
  fabric_name : option string;
  query_params : FabricConfigPreviewQueryParams.t
}.

Definition model_config : ConfigDict := COMMON_CONFIG.

Definition new : t :=
  {| fabric_name := None;
     query_params := FabricConfigPreviewQueryParams.default |}.

Definition set_fabric_name (fw : framework) (self : t) (v : option string) : result t :=
  bind (setattr_str fw model_config EndpointMixins.FabricNameMixin v) (fun x =>
    Ok {| fabric_name := x; query_params := query_params self |}).

Definition path (self : t) : result string :=
  match fabric_name self with
  | None => Raise (ValueError "fabric_name must be set before accessing path")
  | Some fabric_name =>
      let base_path := BasePath.onemanage_fabrics [fabric_name; "config-preview"] in
      let query_string := FabricConfigPreviewQueryParams.to_query_string (query_params self) in
      if truthy query_string then Ok (base_path ++ "?" ++ query_string)
      else Ok base_path
  end.

Definition verb (self : t) : VerbEnum.t := VerbEnum.GET.

End EpOneManageFabricConfigPreview.

Module EpOneManageFabricConfigPreviewSwitch.

Record t : Type := {
  fabric_name : option string;
  switch_sn : option string;
  query_params : FabricConfigPreviewQueryParams.t
}.

Definition model_config : ConfigDict := COMMON_CONFIG.

Definition new : t :=
  {| fabric_name := None;
     switch_sn := None;
     query_params := FabricConfigPreviewQueryParams.default |}.

Definition set_fabric_name (fw : framework) (self : t) (v : option string) : result t :=
  bind (setattr_str fw model_config EndpointMixins.FabricNameMixin v) (fun x =>
    Ok {| fabric_name := x; switch_sn := switch_sn self; query_params := query_params self |}).

Definition set_switch_sn (fw : framework) (self : t) (v : option string) : result t :=
  bind (setattr_str fw model_config EndpointMixins.SwitchSerialNumberMixin v) (fun x =>
    Ok {| fabric_name := fabric_name self; switch_sn := x; query_params := query_params self |}).

Definition path (self : t) : result string :=
  match fabric_name self with
  | None => Raise (ValueError "fabric_name must be set before accessing path")
  | Some fabric_name =>
      match switch_sn self with
      | None => Raise (ValueError "switch_sn must be set before accessing path")
      | Some switch_sn =>
          let base_path := BasePath.onemanage_fabrics [fabric_name; "config-preview"; switch_sn] in
          let query_string := FabricConfigPreviewQueryParams.to_query_string (query_params self) in
          if truthy query_string then Ok (base_path ++ "?" ++ query_string)
          else Ok base_path
      end
  end.

Definition verb (self : t) : VerbEnum.t := VerbEnum.GET.

End EpOneManageFabricConfigPreviewSwitch.

Module EpOneManageFabricConfigSave.

Record t : Type := {
  fabric_name : option string
}.

Definition model_config : ConfigDict := COMMON_CONFIG.

Definition new : t :=
  {| fabric_name := None |}.

Definition set_fabric_name (fw : framework) (self : t) (v : option string) : result t :=
  bind (setattr_str fw model_config EndpointMixins.FabricNameMixin v) (fun x =>
    Ok {| fabric_name := x |}).

Definition path (self : t) : result string :=
  match fabric_name self with
  | None => Raise (ValueError "fabric_name must be set before accessing path")
  | Some fabric_name =>
      Ok (BasePath.onemanage_fabrics [fabric_name; "config-save"])
  end.

Definition verb (self : t) : VerbEnum.t := VerbEnum.POST.

End EpOneManageFabricConfigSave.

Module EpOneManageFabricCreate.

Record t : Type := { }.

Definition model_config : ConfigDict := COMMON_CONFIG.

Definition new : t := Build_t.

Definition path (self : t) : result string :=
  Ok "/appcenter/cisco/ndfc/api/v1/onemanage/fabrics".

Definition verb (self : t) : VerbEnum.t := VerbEnum.POST.

End EpOneManageFabricCreate.

Module EpOneManageFabricDelete.

Record t : Type := {
  fabric_name : option string
}.

Definition model_config : ConfigDict := COMMON_CONFIG.

Definition new : t :=
  {| fabric_name := None |}.

Definition set_fabric_name (fw : framework) (self : t) (v : option string) : result t :=
  bind (setattr_str fw model_config EndpointMixins.FabricNameMixin v) (fun x =>
    Ok {| fabric_name := x |}).

Definition path (self : t) : result string :=
  match fabric_name self with
  | None => Raise (ValueError "fabric_name must be set before accessing path")
  | Some fabric_name =>
      Ok ("/appcenter/cisco/ndfc/api/v1/onemanage/fabrics/" ++ fabric_name)
  end.

Definition verb (self : t) : VerbEnum.t := VerbEnum.DELETE.

End EpOneManageFabricDelete.

Module EpOneManageFabricDetails.

Record t : Type := {
  fabric_name : option string
}.

Definition model_config : ConfigDict := COMMON_CONFIG.

Definition new : t :=
  {| fabric_name := None |}.

Definition set_fabric_name (fw : framework) (self : t) (v : option string) : result t :=
  bind (setattr_str fw model_config EndpointMixins.FabricNameMixin v) (fun x =>
    Ok {| fabric_name := x |}).

Definition path (self : t) : result string :=
  match fabric_name self with
  | None => Raise (ValueError "fabric_name must be set before accessing path")
  | Some fabric_name =>
      Ok ("/appcenter/cisco/ndfc/api/v1/onemanage/fabrics/" ++ fabric_name)
  end.

Definition verb (self : t) : VerbEnum.t := VerbEnum.GET.

End EpOneManageFabricDetails.

Module EpOneManageFabricGroupMembersGet.

Record t : Type := {
  fabric_name : option string
}.

Definition model_config : ConfigDict := COMMON_CONFIG.

Definition new : t :=
  {| fabric_name := None |}.

Definition set_fabric_name (fw : framework) (self : t) (v : option string) : result t :=
  bind (setattr_str fw model_config EndpointMixins.FabricNameMixin v) (fun x =>
    Ok {| fabric_name := x |}).

Definition path (self : t) : result string :=
  match fabric_name self with
  | None => Raise (ValueError "fabric_name must be set before accessing path")
  | Some fabric_name =>
      Ok (BasePath.onemanage_fabrics [fabric_name; "members"])
  end.

Definition verb (self : t) : VerbEnum.t := VerbEnum.GET.

End EpOneManageFabricGroupMembersGet.

Module EpOneManageFabricGroupMembersUpdate.

Record t : Type := {
  fabric_name : option string
}.

Definition model_config : ConfigDict := COMMON_CONFIG.

Definition new : t :=
  {| fabric_name := None |}.

Definition set_fabric_name (fw : framework) (self : t) (v : option string) : result t :=
  bind (setattr_str fw model_config EndpointMixins.FabricNameMixin v) (fun x =>
    Ok {| fabric_name := x |}).

Definition path (self : t) : result string :=
  match fabric_name self with
  | None => Raise (ValueError "fabric_name must be set before accessing path")
  | Some fabric_name =>
      Ok (BasePath.onemanage_fabrics [fabric_name; "members"])
  end.

Definition verb (self : t) : VerbEnum.t := VerbEnum.PUT.

End EpOneManageFabricGroupMembersUpdate.

Module EpOneManageFabricGroupUpdate.

Record t : Type := {
  fabric_name : option string
}.

Definition model_config : ConfigDict := COMMON_CONFIG.

Definition new : t :=
  {| fabric_name := None |}.

Definition set_fabric_name (fw : framework) (self : t) (v : option string) : result t :=
  bind (setattr_str fw model_config EndpointMixins.FabricNameMixin v) (fun x =>
    Ok {| fabric_name := x |}).

Definition path (self : t) : result string :=
  match fabric_name self with
  | None => Raise (ValueError "fabric_name must be set before accessing path")
  | Some fabric_name =>
      Ok (BasePath.onemanage_fabrics [fabric_name])
  end.

Definition verb (self : t) : VerbEnum.t := VerbEnum.PUT.

End EpOneManageFabricGroupUpdate.

Module EpOneManageFabricsGet.

Record t : Type := { }.

Definition model_config : ConfigDict := COMMON_CONFIG.

Definition new : t := Build_t.

Definition path (self : t) : result string :=
  Ok (BasePath.onemanage_fabrics []).

Definition verb (self : t) : VerbEnum.t := VerbEnum.GET.

End EpOneManageFabricsGet.

Module EpOneManageLinkCreate.

Record t : Type := { }.

Definition model_config : ConfigDict := COMMON_CONFIG.

Definition new : t := Build_t.

Definition path (self : t) : result string :=
  Ok (BasePath.onemanage_links []).

Definition verb (self : t) : VerbEnum.t := VerbEnum.POST.

End EpOneManageLinkCreate.

Module EpOneManageLinkGetByUuid.

Record t : Type := {
  link_uuid : option string;
  query_params : LinkByUuidQueryParams.t
}.

Definition model_config : ConfigDict := COMMON_CONFIG.

Definition new : t :=
  {| link_uuid := None;
     query_params := LinkByUuidQueryParams.default |}.

Definition set_link_uuid (fw : framework) (self : t) (v : option string) : result t :=
  bind (setattr_str fw model_config EndpointMixins.LinkUuidMixin v) (fun x =>
    Ok {| link_uuid := x; query_params := query_params self |}).

Definition path (self : t) : result string :=
  match link_uuid self with
  | None => Raise (ValueError "link_uuid must be set before accessing path")
  | Some link_uuid =>
      let base_path := BasePath.onemanage_links [link_uuid] in
      let query_string := LinkByUuidQueryParams.to_query_string (query_params self) in
      if truthy query_string then Ok (base_path ++ "?" ++ query_string)
      else Ok base_path
  end.

Definition verb (self : t) : VerbEnum.t := VerbEnum.GET.

End EpOneManageLinkGetByUuid.

Module EpOneManageLinkUpdate.

Record t : Type := {
  link_uuid : option string;
  query_params : LinkByUuidQueryParams.t
}.

Definition model_config : ConfigDict := COMMON_CONFIG.

Definition new : t :=
  {| link_uuid := None;
     query_params := LinkByUuidQueryParams.default |}.

Definition set_link_uuid (fw : framework) (self : t) (v : option string) : result t :=
  bind (setattr_str fw model_config EndpointMixins.LinkUuidMixin v) (fun x =>
    Ok {| link_uuid := x; query_params := query_params self |}).

Definition path (self : t) : result string :=
  match link_uuid self with
  | None => Raise (ValueError "link_uuid must be set before accessing path")
  | Some link_uuid =>
      let base_path := BasePath.onemanage_links [link_uuid] in
      let query_string := LinkByUuidQueryParams.to_query_string (query_params self) in
      if truthy query_string then Ok (base_path ++ "?" ++ query_string)
      else Ok base_path
  end.

Definition verb (self : t) : VerbEnum.t := VerbEnum.PUT.

End EpOneManageLinkUpdate.

Module EpOneManageLinksDelete.

Record t : Type := { }.

Definition model_config : ConfigDict := COMMON_CONFIG.

Definition new : t := Build_t.

Definition path (self : t) : result string :=
  Ok (BasePath.onemanage_links []).

Definition verb (self : t) : VerbEnum.t := VerbEnum.PUT.

End EpOneManageLinksDelete.

Module EpOneManageLinksGetByFabric.

Record t : Type := {
  fabric_name : option string
}.

Definition model_config : ConfigDict := COMMON_CONFIG.

Definition new : t :=
  {| fabric_name := None |}.

Definition set_fabric_name (fw : framework) (self : t) (v : option string) : result t :=
  bind (setattr_str fw model_config EndpointMixins.FabricNameMixin v) (fun x =>
    Ok {| fabric_name := x |}).

Definition path (self : t) : result string :=
  match fabric_name self with
  | None => Raise (ValueError "fabric_name must be set before accessing path")
  | Some fabric_name =>
      Ok (BasePath.onemanage_links_fabrics [fabric_name])
  end.

Definition verb (self : t) : VerbEnum.t := VerbEnum.GET.

End EpOneManageLinksGetByFabric.

Module EpOneManageNetworkCreate.

Record t : Type := {
  fabric_name : option string
}.

Definition model_config : ConfigDict := COMMON_CONFIG.

Definition new : t :=
  {| fabric_name := None |}.

Definition set_fabric_name (fw : framework) (self : t) (v : option string) : result t :=
  bind (setattr_str fw model_config EndpointMixins.FabricNameMixin v) (fun x =>
    Ok {| fabric_name := x |}).

Definition path (self : t) : result string :=
  match fabric_name self with
  | None => Raise (ValueError "fabric_name must be set before accessing path")
  | Some fabric_name =>
      Ok (BasePath.onemanage_top_down_fabrics [fabric_name; "networks"])
  end.

Definition verb (self : t) : VerbEnum.t := VerbEnum.POST.

End EpOneManageNetworkCreate.

Module EpOneManageNetworkUpdate.

Record t : Type := {
  fabric_name : option string;
  network_name : option string
}.

Definition model_config : ConfigDict := COMMON_CONFIG.

Definition new : t :=
  {| fabric_name := None;
     network_name := None |}.

Definition set_fabric_name (fw : framework) (self : t) (v : option string) : result t :=
  bind (setattr_str fw model_config EndpointMixins.FabricNameMixin v) (fun x =>
    Ok {| fabric_name := x; network_name := network_name self |}).

Definition set_network_name (fw : framework) (self : t) (v : option string) : result t :=
  bind (setattr_str fw model_config EndpointMixins.NetworkNameMixin v) (fun x =>
    Ok {| fabric_name := fabric_name self; network_name := x |}).

Definition path (self : t) : result string :=
  match fabric_name self with
  | None => Raise (ValueError "fabric_name must be set before accessing path")
  | Some fabric_name =>
      match network_name self with
      | None => Raise (ValueError "network_name must be set before accessing path")
      | Some network_name =>
          Ok (BasePath.onemanage_top_down_fabrics [fabric_name; "networks"; network_name])
      end
  end.

Definition verb (self : t) : VerbEnum.t := VerbEnum.PUT.

End EpOneManageNetworkUpdate.

Module EpOneManageNetworksDelete.

Record t : Type := {
  fabric_name : option string;
  query_params : NetworkNamesQueryParams.t
}.

Definition model_config : ConfigDict := COMMON_CONFIG.

Definition new : t :=
  {| fabric_name := None;
     query_params := NetworkNamesQueryParams.default |}.

Definition set_fabric_name (fw : framework) (self : t) (v : option string) : result t :=
  bind (setattr_str fw model_config EndpointMixins.FabricNameMixin v) (fun x =>
    Ok {| fabric_name := x; query_params := query_params self |}).

Definition path (self : t) : result string :=
  match fabric_name self with
  | None => Raise (ValueError "fabric_name must be set before accessing path")
  | Some fabric_name =>
      let base_path := BasePath.onemanage_top_down_fabrics [fabric_name; "bulk-delete"; "networks"] in
      let query_string := NetworkNamesQueryParams.to_query_string (query_params self) in
      if truthy query_string then Ok (base_path ++ "?" ++ query_string)
      else Ok base_path
  end.

Definition verb (self : t) : VerbEnum.t := VerbEnum.DELETE.

End EpOneManageNetworksDelete.

Module EpOneManageNetworksGet.

Record t : Type := {
  fabric_name : option string
}.

Definition model_config : ConfigDict := COMMON_CONFIG.

Definition new : t :=
  {| fabric_name := None |}.

Definition set_fabric_name (fw : framework) (self : t) (v : option string) : result t :=
  bind (setattr_str fw model_config EndpointMixins.FabricNameMixin v) (fun x =>
    Ok {| fabric_name := x |}).

Definition path (self : t) : result string :=
  match fabric_name self with
  | None => Raise (ValueError "fabric_name must be set before accessing path")
  | Some fabric_name =>
      Ok (BasePath.onemanage_top_down_fabrics [fabric_name; "networks"])
  end.

Definition verb (self : t) : VerbEnum.t := VerbEnum.GET.

End EpOneManageNetworksGet.

Module EpOneManageVrfCreate.

Record t : Type := {
  fabric_name : option string
}.

Definition model_config : ConfigDict := COMMON_CONFIG.

Definition new : t :=
  {| fabric_name := None |}.

Definition set_fabric_name (fw : framework) (self : t) (v : option string) : result t :=
  bind (setattr_str fw model_config EndpointMixins.FabricNameMixin v) (fun x =>
    Ok {| fabric_name := x |}).

Definition path (self : t) : result string :=
  match fabric_name self with
  | None => Raise (ValueError "fabric_name must be set before accessing path")
  | Some fabric_name =>
      Ok (BasePath.onemanage_top_down_fabrics [fabric_name; "vrfs"])
  end.

Definition verb (self : t) : VerbEnum.t := VerbEnum.POST.

End EpOneManageVrfCreate.

Module EpOneManageVrfUpdate.

Record t : Type := {
  fabric_name : option string;
  vrf_name : option string
}.

Definition model_config : ConfigDict := COMMON_CONFIG.

Definition new : t :=
  {| fabric_name := None;
     vrf_name := None |}.

Definition set_fabric_name (fw : framework) (self : t) (v : option string) : result t :=
  bind (setattr_str fw model_config EndpointMixins.FabricNameMixin v) (fun x =>
    Ok {| fabric_name := x; vrf_name := vrf_name self |}).

Definition set_vrf_name (fw : framework) (self : t) (v : option string) : result t :=
  bind (setattr_str fw model_config EndpointMixins.VrfNameMixin v) (fun x =>
    Ok {| fabric_name := fabric_name self; vrf_name := x |}).

Definition path (self : t) : result string :=
  match fabric_name self with
  | None => Raise (ValueError "fabric_name must be set before accessing path")
  | Some fabric_name =>
      match vrf_name self with
      | None => Raise (ValueError "vrf_name must be set before accessing path")
      | Some vrf_name =>
          Ok (BasePath.onemanage_top_down_fabrics [fabric_name; "vrfs"; vrf_name])
      end
  end.

Definition verb (self : t) : VerbEnum.t := VerbEnum.PUT.

End EpOneManageVrfUpdate.

Module EpOneManageVrfsDelete.

Record t : Type := {
  fabric_name : option string;
  query_params : VrfNamesQueryParams.t
}.

Definition model_config : ConfigDict := COMMON_CONFIG.

Definition new : t :=
  {| fabric_name := None;
     query_params := VrfNamesQueryParams.default |}.

Definition set_fabric_name (fw : framework) (self : t) (v : option string) : result t :=
  bind (setattr_str fw model_config EndpointMixins.FabricNameMixin v) (fun x =>
    Ok {| fabric_name := x; query_params := query_params self |}).

Definition path (self : t) : result string :=
  match fabric_name self with
  | None => Raise (ValueError "fabric_name must be set before accessing path")
  | Some fabric_name =>
      let base_path := BasePath.onemanage_top_down_fabrics [fabric_name; "bulk-delete"; "vrfs"] in
      let query_string := VrfNamesQueryParams.to_query_string (query_params self) in
      if truthy query_string then Ok (base_path ++ "?" ++ query_string)
      else Ok base_path
  end.

Definition verb (self : t) : VerbEnum.t := VerbEnum.DELETE.

End EpOneManageVrfsDelete.

Module EpOneManageVrfsGet.

Record t : Type := {
  fabric_name : option string
}.

Definition model_config : ConfigDict := COMMON_CONFIG.

Definition new : t :=
  {| fabric_name := None |}.

Definition set_fabric_name (fw : framework) (self : t) (v : option string) : result t :=
  bind (setattr_str fw model_config EndpointMixins.FabricNameMixin v) (fun x =>
    Ok {| fabric_name := x |}).

Definition path (self : t) : result string :=
  match fabric_name self with
  | None => Raise (ValueError "fabric_name must be set before accessing path")
  | Some fabric_name =>
      Ok (BasePath.onemanage_top_down_fabrics [fabric_name; "vrfs"])
  end.

Definition verb (self : t) : VerbEnum.t := VerbEnum.GET.

End EpOneManageVrfsGet.

(* ================================================================== *)
(** ** ep_api_v1_infra_aaa.py *)
(* ================================================================== *)

Module EpApiV1InfraAaaLocalUsers.

(** [_EpApiV1InfraAaaLocalUsersBase]: the four verb classes inherit its
    [login_id] field, its config and its [path]. *)
Record t : Type := { login_id : option string }.

Definition model_config : ConfigDict := COMMON_CONFIG.

Definition new : t := {| login_id := None |}.

Definition set_login_id (fw : framework) (self : t) (v : option string) : result t :=
  bind (setattr_str fw model_config EndpointMixins.LoginIdMixin v) (fun x =>
    Ok {| login_id := x |}).

Definition path (self : t) : result string :=
  match login_id self with
  | Some login_id => Ok (BasePath.nd_infra_aaa ["localUsers"; login_id])
  | None => Ok (BasePath.nd_infra_aaa ["localUsers"])
  end.

(** [verb] of [EpApiV1InfraAaaLocalUsersGet], [..Post], [..Put] and
    [..Delete]. *)
Definition verb_get (self : t) : VerbEnum.t := VerbEnum.GET.
Definition verb_post (self : t) : VerbEnum.t := VerbEnum.POST.
Definition verb_put (self : t) : VerbEnum.t := VerbEnum.PUT.
Definition verb_delete (self : t) : VerbEnum.t := VerbEnum.DELETE.

End EpApiV1InfraAaaLocalUsers.

(* ================================================================== *)
(** ** Endpoint request objects, as one type *)
(* ================================================================== *)

Module Request.

(** Any endpoint request object of the repository. *)
Inductive t : Type :=
| FabricConfigDeploy (e : EpOneManageFabricConfigDeploy.t)
| FabricConfigDeploySwitch (e : EpOneManageFabricConfigDeploySwitch.t)
| FabricConfigPreview (e : EpOneManageFabricConfigPreview.t)
| FabricConfigPreviewSwitch (e : EpOneManageFabricConfigPreviewSwitch.t)
| FabricConfigSave (e : EpOneManageFabricConfigSave.t)
| FabricCreate (e : EpOneManageFabricCreate.t)
| FabricDelete (e : EpOneManageFabricDelete.t)
| FabricDetails (e : EpOneManageFabricDetails.t)
| FabricGroupMembersGet (e : EpOneManageFabricGroupMembersGet.t)
| FabricGroupMembersUpdate (e : EpOneManageFabricGroupMembersUpdate.t)
| FabricGroupUpdate (e : EpOneManageFabricGroupUpdate.t)
| FabricsGet (e : EpOneManageFabricsGet.t)
| LinkCreate (e : EpOneManageLinkCreate.t)
| LinkGetByUuid (e : EpOneManageLinkGetByUuid.t)
| LinkUpdate (e : EpOneManageLinkUpdate.t)
| LinksDelete (e : EpOneManageLinksDelete.t)
| LinksGetByFabric (e : EpOneManageLinksGetByFabric.t)
| NetworkCreate (e : EpOneManageNetworkCreate.t)
| NetworkUpdate (e : EpOneManageNetworkUpdate.t)
| NetworksDelete (e : EpOneManageNetworksDelete.t)
| NetworksGet (e : EpOneManageNetworksGet.t)
| VrfCreate (e : EpOneManageVrfCreate.t)
| VrfUpdate (e : EpOneManageVrfUpdate.t)
| VrfsDelete (e : EpOneManageVrfsDelete.t)
| VrfsGet (e : EpOneManageVrfsGet.t)
| AaaLocalUsers (e : EpApiV1InfraAaaLocalUsers.t).

(** [request.path]. *)
Definition path (r : t) : result string :=
  match r with
  | FabricConfigDeploy e => EpOneManageFabricConfigDeploy.path e
  | FabricConfigDeploySwitch e => EpOneManageFabricConfigDeploySwitch.path e
  | FabricConfigPreview e => EpOneManageFabricConfigPreview.path e
  | FabricConfigPreviewSwitch e => EpOneManageFabricConfigPreviewSwitch.path e
  | FabricConfigSave e => EpOneManageFabricConfigSave.path e
  | FabricCreate e => EpOneManageFabricCreate.path e
  | FabricDelete e => EpOneManageFabricDelete.path e
  | FabricDetails e => EpOneManageFabricDetails.path e
  | FabricGroupMembersGet e => EpOneManageFabricGroupMembersGet.path e
  | FabricGroupMembersUpdate e => EpOneManageFabricGroupMembersUpdate.path e
  | FabricGroupUpdate e => EpOneManageFabricGroupUpdate.path e
  | FabricsGet e => EpOneManageFabricsGet.path e
  | LinkCreate e => EpOneManageLinkCreate.path e
  | LinkGetByUuid e => EpOneManageLinkGetByUuid.path e
  | LinkUpdate e => EpOneManageLinkUpdate.path e
  | LinksDelete e => EpOneManageLinksDelete.path e
  | LinksGetByFabric e => EpOneManageLinksGetByFabric.path e
  | NetworkCreate e => EpOneManageNetworkCreate.path e
  | NetworkUpdate e => EpOneManageNetworkUpdate.path e
  | NetworksDelete e => EpOneManageNetworksDelete.path e
  | NetworksGet e => EpOneManageNetworksGet.path e
  | VrfCreate e => EpOneManageVrfCreate.path e
  | VrfUpdate e => EpOneManageVrfUpdate.path e
  | VrfsDelete e => EpOneManageVrfsDelete.path e
  | VrfsGet e => EpOneManageVrfsGet.path e
  | AaaLocalUsers e => EpApiV1InfraAaaLocalUsers.path e
  end.

(** [model_config] of the request's class. *)
Definition model_config (r : t) : ConfigDict :=
  match r with
  | FabricConfigDeploy _ => EpOneManageFabricConfigDeploy.model_config
  | FabricConfigDeploySwitch _ => EpOneManageFabricConfigDeploySwitch.model_config
  | FabricConfigPreview _ => EpOneManageFabricConfigPreview.model_config
  | FabricConfigPreviewSwitch _ => EpOneManageFabricConfigPreviewSwitch.model_config
  | FabricConfigSave _ => EpOneManageFabricConfigSave.model_config
  | FabricCreate _ => EpOneManageFabricCreate.model_config
  | FabricDelete _ => EpOneManageFabricDelete.model_config
  | FabricDetails _ => EpOneManageFabricDetails.model_config
  | FabricGroupMembersGet _ => EpOneManageFabricGroupMembersGet.model_config
  | FabricGroupMembersUpdate _ => EpOneManageFabricGroupMembersUpdate.model_config
  | FabricGroupUpdate _ => EpOneManageFabricGroupUpdate.model_config
  | FabricsGet _ => EpOneManageFabricsGet.model_config
  | LinkCreate _ => EpOneManageLinkCreate.model_config
  | LinkGetByUuid _ => EpOneManageLinkGetByUuid.model_config
  | LinkUpdate _ => EpOneManageLinkUpdate.model_config
  | LinksDelete _ => EpOneManageLinksDelete.model_config
  | LinksGetByFabric _ => EpOneManageLinksGetByFabric.model_config
  | NetworkCreate _ => EpOneManageNetworkCreate.model_config
  | NetworkUpdate _ => EpOneManageNetworkUpdate.model_config
  | NetworksDelete _ => EpOneManageNetworksDelete.model_config
  | NetworksGet _ => EpOneManageNetworksGet.model_config
  | VrfCreate _ => EpOneManageVrfCreate.model_config
  | VrfUpdate _ => EpOneManageVrfUpdate.model_config
  | VrfsDelete _ => EpOneManageVrfsDelete.model_config
  | VrfsGet _ => EpOneManageVrfsGet.model_config
  | AaaLocalUsers _ => EpApiV1InfraAaaLocalUsers.model_config
  end.

(** The identifier attributes the class inherits from the mixins of
    endpoint_mixins.py, in the order of its bases, with their current
    values. *)
Definition identifiers (r : t) : list (StrField * option string) :=
  match r with
  | FabricConfigDeploy e =>
      [(EndpointMixins.FabricNameMixin, EpOneManageFabricConfigDeploy.fabric_name e)]
  | FabricConfigDeploySwitch e =>
      [(EndpointMixins.FabricNameMixin, EpOneManageFabricConfigDeploySwitch.fabric_name e); (EndpointMixins.SwitchSerialNumberMixin, EpOneManageFabricConfigDeploySwitch.switch_sn e)]
  | FabricConfigPreview e =>
      [(EndpointMixins.FabricNameMixin, EpOneManageFabricConfigPreview.fabric_name e)]
  | FabricConfigPreviewSwitch e =>
      [(EndpointMixins.FabricNameMixin, EpOneManageFabricConfigPreviewSwitch.fabric_name e); (EndpointMixins.SwitchSerialNumberMixin, EpOneManageFabricConfigPreviewSwitch.switch_sn e)]
  | FabricConfigSave e =>
      [(EndpointMixins.FabricNameMixin, EpOneManageFabricConfigSave.fabric_name e)]
  | FabricCreate _ =>
      []
  | FabricDelete e =>
      [(EndpointMixins.FabricNameMixin, EpOneManageFabricDelete.fabric_name e)]
  | FabricDetails e =>
      [(EndpointMixins.FabricNameMixin, EpOneManageFabricDetails.fabric_name e)]
  | FabricGroupMembersGet e =>
      [(EndpointMixins.FabricNameMixin, EpOneManageFabricGroupMembersGet.fabric_name e)]
  | FabricGroupMembersUpdate e =>
      [(EndpointMixins.FabricNameMixin, EpOneManageFabricGroupMembersUpdate.fabric_name e)]
  | FabricGroupUpdate e =>
      [(EndpointMixins.FabricNameMixin, EpOneManageFabricGroupUpdate.fabric_name e)]
  | FabricsGet _ =>
      []
  | LinkCreate _ =>
      []
  | LinkGetByUuid e =>
      [(EndpointMixins.LinkUuidMixin, EpOneManageLinkGetByUuid.link_uuid e)]
  | LinkUpdate e =>
      [(EndpointMixins.LinkUuidMixin, EpOneManageLinkUpdate.link_uuid e)]
  | LinksDelete _ =>
      []
  | LinksGetByFabric e =>
      [(EndpointMixins.FabricNameMixin, EpOneManageLinksGetByFabric.fabric_name e)]
  | NetworkCreate e =>
      [(EndpointMixins.FabricNameMixin, EpOneManageNetworkCreate.fabric_name e)]
  | NetworkUpdate e =>
      [(EndpointMixins.FabricNameMixin, EpOneManageNetworkUpdate.fabric_name e); (EndpointMixins.NetworkNameMixin, EpOneManageNetworkUpdate.network_name e)]
  | NetworksDelete e =>
      [(EndpointMixins.FabricNameMixin, EpOneManageNetworksDelete.fabric_name e)]
  | NetworksGet e =>
      [(EndpointMixins.FabricNameMixin, EpOneManageNetworksGet.fabric_name e)]
  | VrfCreate e =>
      [(EndpointMixins.FabricNameMixin, EpOneManageVrfCreate.fabric_name e)]
  | VrfUpdate e =>
      [(EndpointMixins.FabricNameMixin, EpOneManageVrfUpdate.fabric_name e); (EndpointMixins.VrfNameMixin, EpOneManageVrfUpdate.vrf_name e)]
  | VrfsDelete e =>
      [(EndpointMixins.FabricNameMixin, EpOneManageVrfsDelete.fabric_name e)]
  | VrfsGet e =>
      [(EndpointMixins.FabricNameMixin, EpOneManageVrfsGet.fabric_name e)]
  | AaaLocalUsers e =>
      [(EndpointMixins.LoginIdMixin, EpApiV1InfraAaaLocalUsers.login_id e)]
  end.

(** Names of the identifier attributes still holding [None]. *)
Definition unset (r : t) : list string :=
  List.map (fun fv => field_name (fst fv))
    (List.filter (fun fv => match snd fv with None => true | Some _ => false end)
       (identifiers r)).

(** The OneManage endpoints, as opposed to the ND Infra AAA ones. *)
Definition onemanage (r : t) : bool :=
  match r with
  | AaaLocalUsers _ => false
  | _ => true
  end.

Definition lift {A : Type} (inj : A -> t) (r : result A) : result t :=
  bind r (fun e => Ok (inj e)).

(** [request.<name> = v] for an identifier attribute; [None] when the
    class declares no identifier of that name. *)
Definition set_identifier (fw : framework) (r : t) (name : string) (v : option string)
  : option (result t) :=
  match r with
  | FabricConfigDeploy e =>
      if String.eqb name "fabric_name"
      then Some (lift FabricConfigDeploy (EpOneManageFabricConfigDeploy.set_fabric_name fw e v))
      else None
  | FabricConfigDeploySwitch e =>
      if String.eqb name "fabric_name"
      then Some (lift FabricConfigDeploySwitch (EpOneManageFabricConfigDeploySwitch.set_fabric_name fw e v))
      else if String.eqb name "switch_sn"
      then Some (lift FabricConfigDeploySwitch (EpOneManageFabricConfigDeploySwitch.set_switch_sn fw e v))
      else None
  | FabricConfigPreview e =>
      if String.eqb name "fabric_name"
      then Some (lift FabricConfigPreview (EpOneManageFabricConfigPreview.set_fabric_name fw e v))
      else None
  | FabricConfigPreviewSwitch e =>
      if String.eqb name "fabric_name"
      then Some (lift FabricConfigPreviewSwitch (EpOneManageFabricConfigPreviewSwitch.set_fabric_name fw e v))
      else if String.eqb name "switch_sn"
      then Some (lift FabricConfigPreviewSwitch (EpOneManageFabricConfigPreviewSwitch.set_switch_sn fw e v))
      else None
  | FabricConfigSave e =>
      if String.eqb name "fabric_name"
      then Some (lift FabricConfigSave (EpOneManageFabricConfigSave.set_fabric_name fw e v))
      else None
  | FabricCreate _ => None
  | FabricDelete e =>
      if String.eqb name "fabric_name"
      then Some (lift FabricDelete (EpOneManageFabricDelete.set_fabric_name fw e v))
      else None
  | FabricDetails e =>
      if String.eqb name "fabric_name"
      then Some (lift FabricDetails (EpOneManageFabricDetails.set_fabric_name fw e v))
      else None
  | FabricGroupMembersGet e =>
      if String.eqb name "fabric_name"
      then Some (lift FabricGroupMembersGet (EpOneManageFabricGroupMembersGet.set_fabric_name fw e v))
      else None
  | FabricGroupMembersUpdate e =>
      if String.eqb name "fabric_name"
      then Some (lift FabricGroupMembersUpdate (EpOneManageFabricGroupMembersUpdate.set_fabric_name fw e v))
      else None
  | FabricGroupUpdate e =>
      if String.eqb name "fabric_name"
      then Some (lift FabricGroupUpdate (EpOneManageFabricGroupUpdate.set_fabric_name fw e v))
      else None
  | FabricsGet _ => None
  | LinkCreate _ => None
  | LinkGetByUuid e =>
      if String.eqb name "link_uuid"
      then Some (lift LinkGetByUuid (EpOneManageLinkGetByUuid.set_link_uuid fw e v))
      else None
  | LinkUpdate e =>
      if String.eqb name "link_uuid"
      then Some (lift LinkUpdate (EpOneManageLinkUpdate.set_link_uuid fw e v))
      else None
  | LinksDelete _ => None
  | LinksGetByFabric e =>
      if String.eqb name "fabric_name"
      then Some (lift LinksGetByFabric (EpOneManageLinksGetByFabric.set_fabric_name fw e v))
      else None
  | NetworkCreate e =>
      if String.eqb name "fabric_name"
      then Some (lift NetworkCreate (EpOneManageNetworkCreate.set_fabric_name fw e v))
      else None
  | NetworkUpdate e =>
      if String.eqb name "fabric_name"
      then Some (lift NetworkUpdate (EpOneManageNetworkUpdate.set_fabric_name fw e v))
      else if String.eqb name "network_name"
      then Some (lift NetworkUpdate (EpOneManageNetworkUpdate.set_network_name fw e v))
      else None
  | NetworksDelete e =>
      if String.eqb name "fabric_name"
      then Some (lift NetworksDelete (EpOneManageNetworksDelete.set_fabric_name fw e v))
      else None
  | NetworksGet e =>
      if String.eqb name "fabric_name"
      then Some (lift NetworksGet (EpOneManageNetworksGet.set_fabric_name fw e v))
      else None
  | VrfCreate e =>
      if String.eqb name "fabric_name"
      then Some (lift VrfCreate (EpOneManageVrfCreate.set_fabric_name fw e v))
      else None
  | VrfUpdate e =>
      if String.eqb name "fabric_name"
      then Some (lift VrfUpdate (EpOneManageVrfUpdate.set_fabric_name fw e v))
      else if String.eqb name "vrf_name"
      then Some (lift VrfUpdate (EpOneManageVrfUpdate.set_vrf_name fw e v))
      else None
  | VrfsDelete e =>
      if String.eqb name "fabric_name"
      then Some (lift VrfsDelete (EpOneManageVrfsDelete.set_fabric_name fw e v))
      else None
  | VrfsGet e =>
      if String.eqb name "fabric_name"
      then Some (lift VrfsGet (EpOneManageVrfsGet.set_fabric_name fw e v))
      else None
  | AaaLocalUsers e =>
      if String.eqb name "login_id"
      then Some (lift AaaLocalUsers (EpApiV1InfraAaaLocalUsers.set_login_id fw e v))
      else None
  end.

End Request.

(* ================================================================== *)
(** ** Runtime: objects held by reference

    [request.query_params] is a reference to a parameter object, and
    where that object comes from depends on the framework:
    pydantic calls [default_factory] for every new instance, while the
    fallback [Field] of pydantic_compat.py calls it once, when the class
    body runs, and the fallback [BaseModel.__init__] stores only the
    keyword arguments it is given.  The store below keeps parameter
    objects and request instances by address, for the class
    [EpOneManageFabricConfigDeploy]. *)
(* ================================================================== *)

Module Runtime.

Definition ref : Type := nat.

(** The [__dict__] of a request instance: the attributes it owns.
    An attribute it does not own is looked up on the class. *)
Record instance : Type := {
  own_fabric_name : option (option string);
  own_query_params : option ref
}.

(** The attributes the class body leaves on the class. *)
Record class_attrs : Type := {
  cls_fabric_name : option string;
  cls_query_params : option ref
}.

Record store : Type := {
  params : gmap ref FabricConfigDeployQueryParams.t;
  instances : gmap ref instance;
  next : ref
}.

Definition empty_store : store :=
  {| params := ∅; instances := ∅; next := 0%nat |}.

(** Computations over the store that may raise. *)
Definition M (A : Type) : Type := store -> result (A * store).

Definition ret {A : Type} (a : A) : M A := fun st => Ok (a, st).

Definition mbind {A B : Type} (c : M A) (k : A -> M B) : M B :=
  fun st =>
    match c st with
    | Ok (a, st') => k a st'
    | Raise e => Raise e
    end.

Definition lift_result {A : Type} (r : result A) : M A :=
  fun st =>
    match r with
    | Ok a => Ok (a, st)
    | Raise e => Raise e
    end.

Definition run {A : Type} (c : M A) : result A :=
  match c empty_store with
  | Ok (a, _) => Ok a
  | Raise e => Raise e
  end.

Declare Scope rt_scope.
Delimit Scope rt_scope with rt.
Notation "'let*' x ':=' c 'in' k" := (mbind c (fun x => k))
  (at level 10, x name, c at level 100, k at level 200) : rt_scope.

Definition alloc_params (v : FabricConfigDeployQueryParams.t) : M ref :=
  fun st =>
    Ok (next st,
        {| params := <[next st := v]> (params st);
           instances := instances st;
           next := S (next st) |}).

Definition alloc_instance (v : instance) : M ref :=
  fun st =>
    Ok (next st,
        {| params := params st;
           instances := <[next st := v]> (instances st);
           next := S (next st) |}).

Definition read_params (r : ref) : M FabricConfigDeployQueryParams.t :=
  fun st =>
    match params st !! r with
    | Some v => Ok (v, st)
    | None => Raise (AttributeError "query_params")
    end.

Definition write_params (r : ref) (v : FabricConfigDeployQueryParams.t) : M unit :=
  fun st =>
    Ok (tt, {| params := <[r := v]> (params st);
               instances := instances st;
               next := next st |}).

Definition read_instance (r : ref) : M instance :=
  fun st =>
    match instances st !! r with
    | Some v => Ok (v, st)
    | None => Raise (AttributeError "instance")
    end.

Definition write_instance (r : ref) (v : instance) : M unit :=
  fun st =>
    Ok (tt, {| params := params st;
               instances := <[r := v]> (instances st);
               next := next st |}).

(** [Field(default_factory=FabricConfigDeployQueryParams)] in the class
    body.  The fallback returns [kwargs["default_factory"]()]: one
    object, built now.  pydantic keeps the factory. *)
Definition Field_default_factory (fw : framework) : M (option ref) :=
  match fw with
  | Fallback =>
      (let* r := alloc_params FabricConfigDeployQueryParams.default in ret (Some r))%rt
  | Strict => ret None
  end.

(** The class body of [EpOneManageFabricConfigDeploy]:
    [fabric_name] from [FabricNameMixin] ([Field(default=None, ..)])
    and [query_params]. *)
Definition define_class (fw : framework) : M class_attrs :=
  (let* q := Field_default_factory fw in
   ret {| cls_fabric_name := None; cls_query_params := q |})%rt.

(** [EpOneManageFabricConfigDeploy()].  pydantic gives the instance
    every declared field, calling the factory; the fallback
    [__init__] sets one attribute per keyword argument, here none. *)
Definition instantiate (fw : framework) : M ref :=
  match fw with
  | Strict =>
      (let* q := alloc_params FabricConfigDeployQueryParams.default in
       alloc_instance {| own_fabric_name := Some None; own_query_params := Some q |})%rt
  | Fallback =>
      alloc_instance {| own_fabric_name := None; own_query_params := None |}
  end.

(** [request.fabric_name]. *)
Definition getattr_fabric_name (cls : class_attrs) (request : ref) : M (option string) :=
  (let* i := read_instance request in
   match own_fabric_name i with
   | Some v => ret v
   | None => ret (cls_fabric_name cls)
   end)%rt.

(** [request.query_params]. *)
Definition getattr_query_params (cls : class_attrs) (request : ref) : M ref :=
  (let* i := read_instance request in
   match own_query_params i with
   | Some q => ret q
   | None =>
       match cls_query_params cls with
       | Some q => ret q
       | None => lift_result (Raise (AttributeError "query_params"))
       end
   end)%rt.

(** [request.fabric_name = v]. *)
Definition setattr_fabric_name (fw : framework) (request : ref) (v : option string) : M unit :=
  (let* i := read_instance request in
   let* x := lift_result
          (setattr_str fw EpOneManageFabricConfigDeploy.model_config
             EndpointMixins.FabricNameMixin v) in
   write_instance request
     {| own_fabric_name := Some x; own_query_params := own_query_params i |})%rt.

(** [request.query_params.force_show_run = v]. *)
Definition setattr_force_show_run (fw : framework) (cls : class_attrs) (request : ref)
  (v : flag) : M unit :=
  (let* q := getattr_query_params cls request in
   let* obj := read_params q in
   let* obj' := lift_result (FabricConfigDeployQueryParams.set_force_show_run fw obj v) in
   write_params q obj')%rt.

(** [request.path]. *)
Definition path (cls : class_attrs) (request : ref) : M string :=
  (let* f := getattr_fabric_name cls request in
   let* q := getattr_query_params cls request in
   let* obj := read_params q in
   lift_result
     (EpOneManageFabricConfigDeploy.path
        {| EpOneManageFabricConfigDeploy.fabric_name := f;
           EpOneManageFabricConfigDeploy.query_params := obj |}))%rt.

(** Two requests of the same class; the flag is set through the first
    and the path is read from the second. *)
Definition two_requests (fw : framework) : M string :=
  (let* cls := define_class fw in
   let* first := instantiate fw in
   let* second := instantiate fw in
   let* _ := setattr_fabric_name fw first (Some "FabricA") in
   let* _ := setattr_fabric_name fw second (Some "FabricB") in
   let* _ := setattr_force_show_run fw cls first (FEnum BooleanStringEnum.TRUE) in
   path cls second)%rt.

(** One request: identifier and flag assigned, then the path read. *)
Definition one_request (fw : framework) (name : option string) (v : flag) : M string :=
  (let* cls := define_class fw in
   let* request := instantiate fw in
   let* _ := setattr_fabric_name fw request name in
   let* _ := setattr_force_show_run fw cls request v in
   path cls request)%rt.

End Runtime.

(* ================================================================== *)
(** ** demo_composite.py: the end-to-end scenario of example 1 *)
(* ================================================================== *)

Module DemoComposite.

(** What [example_1_basic_composite] computes and prints: the request
    after the assignments, the base path, [query_string] (built with
    [url_encode=True]), the string of the aggregate without encoding
    (printed from [composite.to_query_string(url_encode=False)]) and
    [full_url]. *)
Record outcome : Type := {
  ep : EpOneManageFabricConfigDeploySwitch.t;
  base_path : string;
  query_string : string;
  not_encoded : string;
  full_url : string
}.

(** [LuceneQueryParams(filter=.., max=50, sort="name:asc")]. *)
Definition lucene_params : LuceneQueryParams.t :=
  {| LuceneQueryParams.filter := Some "name:Spine* AND role:spine";
     LuceneQueryParams.max := Some 50%Z;
     LuceneQueryParams.offset := None;
     LuceneQueryParams.sort := Some "name:asc";
     LuceneQueryParams.fields := None |}.

(** The aggregate of the example: the request's parameters, then the
    filter model. *)
Definition compose (query_params : FabricConfigDeployQueryParams.t) : CompositeQueryParams.t :=
  let composite := CompositeQueryParams.new in
  let composite := CompositeQueryParams.add composite (Pack _ _ query_params) in
  let composite := CompositeQueryParams.add composite (Pack _ _ lucene_params) in
  composite.

(** [example_1_basic_composite]. *)
Definition example_1_basic_composite (fw : framework) : result outcome :=
  let ep := EpOneManageFabricConfigDeploySwitch.new in
  bind (EpOneManageFabricConfigDeploySwitch.set_fabric_name fw ep (Some "MyFabric")) (fun ep =>
  bind (EpOneManageFabricConfigDeploySwitch.set_switch_sn fw ep (Some "FOC12345678")) (fun ep =>
  bind (FabricConfigDeployQueryParams.set_force_show_run fw
          (EpOneManageFabricConfigDeploySwitch.query_params ep)
          (FEnum BooleanStringEnum.TRUE)) (fun qp =>
  bind (FabricConfigDeployQueryParams.set_incl_all_msd_switches fw qp
          (FEnum BooleanStringEnum.FALSE)) (fun qp =>
  let ep :=
    {| EpOneManageFabricConfigDeploySwitch.fabric_name :=
         EpOneManageFabricConfigDeploySwitch.fabric_name ep;
       EpOneManageFabricConfigDeploySwitch.switch_sn :=
         EpOneManageFabricConfigDeploySwitch.switch_sn ep;
       EpOneManageFabricConfigDeploySwitch.query_params := qp |} in
  let composite := compose (EpOneManageFabricConfigDeploySwitch.query_params ep) in
  match EpOneManageFabricConfigDeploySwitch.fabric_name ep,
        EpOneManageFabricConfigDeploySwitch.switch_sn ep with
  | Some fabric_name, Some switch_sn =>
      let base_path := BasePath.onemanage_fabrics [fabric_name; "config-deploy"; switch_sn] in
      let query_string := CompositeQueryParams.to_query_string composite true in
      let full_url :=
        if truthy query_string then base_path ++ "?" ++ query_string else base_path in
      Ok {| ep := ep;
            base_path := base_path;
            query_string := query_string;
            not_encoded := CompositeQueryParams.to_query_string composite false;
            full_url := full_url |}
  | _, _ => Raise (ValueError "fabric_name and switch_sn must be set")
  end)))).

End DemoComposite.

(* ================================================================== *)
(** ** Vocabulary of the properties *)
(* ================================================================== *)

Module Props.

(** Reading [path] fails with the required-path-parameter-missing
    failure, naming an identifier of the request that is unset. *)
Definition raises_missing (r : Request.t) : Prop :=
  exists f, In f (Request.unset r) /\
    Request.path r = Raise (ValueError (f ++ " must be set before accessing path")).

(** The lengths the identifier constraints reject: the empty string
    for every identifier, more than 64 characters for the bounded ones. *)
Definition out_of_constraint (name s : string) : Prop :=
  len s = 0%nat \/
  ((64 < len s)%nat /\ In name ["fabric_name"; "network_name"; "vrf_name"]).



(** A filter-style model with only its filter assigned. *)
Definition filter_only (f : string) : LuceneQueryParams.t :=
  {| LuceneQueryParams.filter := Some f;
     LuceneQueryParams.max := None;
     LuceneQueryParams.offset := None;
     LuceneQueryParams.sort := None;
     LuceneQueryParams.fields := None |}.

(** A filter-style model with only [max] assigned. *)
Definition max_only (n : Z) : LuceneQueryParams.t :=
  {| LuceneQueryParams.filter := None;
     LuceneQueryParams.max := Some n;
     LuceneQueryParams.offset := None;
     LuceneQueryParams.sort := None;
     LuceneQueryParams.fields := None |}.


(** The fragments the aggregate keeps, said without the loop: the
    fragments of the models that are not empty, in order, without the
    empty fragments. *)
Definition kept_fragments (url_encode : bool) (ms : list any) : list string :=
  List.filter truthy
    (List.map (fun m => any_to_query_string m url_encode)
       (List.filter (fun m => negb (any_is_empty m)) ms)).

End Props.

Import Props.

(* ================================================================== *)
(** ** pydantic_compat.py: the fallback [BaseModel] as a dictionary *)
(* ================================================================== *)

Module FallbackBaseModel.

(** Values an attribute of a fallback model may hold. *)
Inductive value : Type :=
| VNone
| VStr (s : string)
| VInt (n : Z)
| VBool (b : bool)
| VMember (b : BooleanStringEnum.t).



End FallbackBaseModel.

(* ================================================================== *)
(** ** Sequences of operations *)
(* ================================================================== *)

Module Assignments.

(** An assignment to one of the two flags of the config-deploy
    parameters. *)
Inductive t : Type :=
| ForceShowRun (v : flag)
| InclAllMsdSwitches (v : flag).

Definition assign (fw : framework) (q : FabricConfigDeployQueryParams.t) (a : t)
  : result FabricConfigDeployQueryParams.t :=
  match a with
  | ForceShowRun v => FabricConfigDeployQueryParams.set_force_show_run fw q v
  | InclAllMsdSwitches v => FabricConfigDeployQueryParams.set_incl_all_msd_switches fw q v
  end.

(** The assignments of [l], one after the other; the first failure
    propagates. *)
Fixpoint assign_all (fw : framework) (q : FabricConfigDeployQueryParams.t) (l : list t)
  : result FabricConfigDeployQueryParams.t :=
  match l with
  | [] => Ok q
  | a :: rest => bind (assign fw q a) (fun q' => assign_all fw q' rest)
  end.

End Assignments.

Module RuntimeScenarios.

Import Runtime.

(** Two requests of the class, each given a fabric name; a flag is
    assigned through the first, the path is read from the second. *)
Definition flag_through_first (fw : framework) (name1 name2 : option string) (v : flag)
  : M string :=
  (let* cls := define_class fw in
   let* first := instantiate fw in
   let* second := instantiate fw in
   let* _ := setattr_fabric_name fw first name1 in
   let* _ := setattr_fabric_name fw second name2 in
   let* _ := setattr_force_show_run fw cls first v in
   path cls second)%rt.

(** One request given a fabric name, its parameters left alone. *)
Definition untouched (fw : framework) (name : option string) : M string :=
  (let* cls := define_class fw in
   let* request := instantiate fw in
   let* _ := setattr_fabric_name fw request name in
   path cls request)%rt.

(** Two requests; only the first is given a fabric name, the path is
    read from the second. *)
Definition name_through_first (fw : framework) (name1 : option string) : M string :=
  (let* cls := define_class fw in
   let* first := instantiate fw in
   let* second := instantiate fw in
   let* _ := setattr_fabric_name fw first name1 in
   path cls second)%rt.

End RuntimeScenarios.

(* ================================================================== *)
(** * Properties *)
(* ================================================================== *)

(** ** Strings *)

Lemma prefix_append (k r : string) : String.prefix k (k ++ r) = true.
Proof.
  induction k as [|c k IH]; simpl.
  - destruct r; reflexivity.
  - destruct (ascii_dec c c) as [_|ne]; [exact IH | congruence].
Qed.

Lemma find_from_prefix (k s : string) :
  String.prefix k s = true -> find_from k s = Some 0%nat.
Proof.
  intros H. destruct s; cbn [find_from]; rewrite H; reflexivity.
Qed.

Lemma contains_prefix (k s : string) :
  String.prefix k s = true -> contains k s = true.
Proof.
  intros H. unfold contains. rewrite (find_from_prefix _ _ H). reflexivity.
Qed.

Lemma contains_cons (k : string) (c : ascii) (s : string) :
  contains k s = true -> contains k (String c s) = true.
Proof.
  unfold contains. cbn [find_from].
  destruct (String.prefix k (String c s)); [reflexivity|].
  destruct (find_from k s); [reflexivity | discriminate].
Qed.

Lemma contains_append_r (k a b : string) :
  contains k b = true -> contains k (a ++ b) = true.
Proof.
  intros H. induction a as [|c a IH]; simpl; [exact H|].
  apply contains_cons, IH.
Qed.

Lemma truthy_cons (c : ascii) (s : string) : truthy (String c s) = true.
Proof. reflexivity. Qed.

Lemma truthy_nonempty (s : string) : truthy s = true <-> s <> "".
Proof.
  destruct s; simpl; split; intros H; try reflexivity; try discriminate.
  congruence.
Qed.

(** ** The config-deploy parameters *)

Lemma deploy_query_string_shape (q : FabricConfigDeployQueryParams.t) :
  FabricConfigDeployQueryParams.to_query_string q =
  "forceShowRun=" ++ flag_text (FabricConfigDeployQueryParams.force_show_run q)
  ++ "&inclAllMSDSwitches="
  ++ flag_text (FabricConfigDeployQueryParams.incl_all_msd_switches q).
Proof.
  unfold FabricConfigDeployQueryParams.to_query_string, append. simpl.
  reflexivity.
Qed.

(** C1: a [FabricConfigDeployQueryParams] whose two flags read "false",
    as they do when left at their declared defaults (the enum member
    FALSE, or the string "false"), serializes to a string that contains
    both [forceShowRun=false] and [inclAllMSDSwitches=false]: the value
    "false" is emitted, never treated as absent. *)
Theorem defaults_emit_both_flags (q : FabricConfigDeployQueryParams.t) :
  flag_text (FabricConfigDeployQueryParams.force_show_run q) = "false" ->
  flag_text (FabricConfigDeployQueryParams.incl_all_msd_switches q) = "false" ->
  contains "forceShowRun=false" (FabricConfigDeployQueryParams.to_query_string q) = true /\
  contains "inclAllMSDSwitches=false" (FabricConfigDeployQueryParams.to_query_string q) = true /\
  FabricConfigDeployQueryParams.to_query_string q =
    "forceShowRun=false&inclAllMSDSwitches=false".
Proof.
  intros Hf Hi. rewrite deploy_query_string_shape, Hf, Hi.
  repeat split; reflexivity.
Qed.

Lemma defaults_emit_both_flags_witness :
  contains "forceShowRun=false"
    (FabricConfigDeployQueryParams.to_query_string FabricConfigDeployQueryParams.default) = true /\
  contains "inclAllMSDSwitches=false"
    (FabricConfigDeployQueryParams.to_query_string FabricConfigDeployQueryParams.default) = true /\
  FabricConfigDeployQueryParams.to_query_string FabricConfigDeployQueryParams.default =
    "forceShowRun=false&inclAllMSDSwitches=false".
Proof.
  apply (defaults_emit_both_flags FabricConfigDeployQueryParams.default); reflexivity.
Defined.

(** C10: the config-deploy parameters never serialize to the empty
    string, so for a config-deploy request whose identifiers are set
    the path is the base path, then [?], then the [forceShowRun] pair
    and the [inclAllMSDSwitches] pair. *)
Theorem config_deploy_path_has_query :
  (forall q, FabricConfigDeployQueryParams.to_query_string q <> "") /\
  (forall fabric q,
      EpOneManageFabricConfigDeploy.path
        {| EpOneManageFabricConfigDeploy.fabric_name := Some fabric;
           EpOneManageFabricConfigDeploy.query_params := q |} =
      Ok (BasePath.onemanage_fabrics [fabric; "config-deploy"]
          ++ "?" ++ "forceShowRun="
          ++ flag_text (FabricConfigDeployQueryParams.force_show_run q)
          ++ "&inclAllMSDSwitches="
          ++ flag_text (FabricConfigDeployQueryParams.incl_all_msd_switches q))) /\
  (forall fabric sn q,
      EpOneManageFabricConfigDeploySwitch.path
        {| EpOneManageFabricConfigDeploySwitch.fabric_name := Some fabric;
           EpOneManageFabricConfigDeploySwitch.switch_sn := Some sn;
           EpOneManageFabricConfigDeploySwitch.query_params := q |} =
      Ok (BasePath.onemanage_fabrics [fabric; "config-deploy"; sn]
          ++ "?" ++ "forceShowRun="
          ++ flag_text (FabricConfigDeployQueryParams.force_show_run q)
          ++ "&inclAllMSDSwitches="
          ++ flag_text (FabricConfigDeployQueryParams.incl_all_msd_switches q))).
Proof.
  split; [|split].
  - intros q. rewrite deploy_query_string_shape. discriminate.
  - intros fabric q. cbn [EpOneManageFabricConfigDeploy.path
      EpOneManageFabricConfigDeploy.fabric_name
      EpOneManageFabricConfigDeploy.query_params].
    rewrite deploy_query_string_shape. reflexivity.
  - intros fabric sn q. cbn [EpOneManageFabricConfigDeploySwitch.path
      EpOneManageFabricConfigDeploySwitch.fabric_name
      EpOneManageFabricConfigDeploySwitch.switch_sn
      EpOneManageFabricConfigDeploySwitch.query_params].
    rewrite deploy_query_string_shape. reflexivity.
Qed.

(** C8: [NetworkNamesQueryParams] writes its field under the wire key
    [network-names] and [VrfNamesQueryParams] under [vrf-names], as
    declared; no output of either begins with the camelCase key. *)
Theorem hyphenated_wire_keys :
  (forall c s,
      NetworkNamesQueryParams.to_query_string
        {| NetworkNamesQueryParams.network_names := Some (String c s) |} =
      "network-names=" ++ String c s) /\
  (forall c s,
      VrfNamesQueryParams.to_query_string
        {| VrfNamesQueryParams.vrf_names := Some (String c s) |} =
      "vrf-names=" ++ String c s) /\
  (forall m, String.prefix "networkNames" (NetworkNamesQueryParams.to_query_string m) = false) /\
  (forall m, String.prefix "vrfNames" (VrfNamesQueryParams.to_query_string m) = false).
Proof.
  repeat split.
  - intros [[[|c s]|]]; reflexivity.
  - intros [[[|c s]|]]; reflexivity.
Qed.

(** ** Reading [path] *)

Ltac split_request r :=
  destruct r as
    [e|e|e|e|e|e|e|e|e|e|e|e|e|e|e|e|e|e|e|e|e|e|e|e|e|e];
  destruct e.

Ltac split_options :=
  repeat match goal with
         | x : option string |- _ => destruct x
         end.

Lemma aaa_path_total (e : EpApiV1InfraAaaLocalUsers.t) :
  EpApiV1InfraAaaLocalUsers.path e =
  Ok (BasePath.nd_infra_aaa
        ("localUsers" ::
         match EpApiV1InfraAaaLocalUsers.login_id e with
         | Some l => [l]
         | None => []
         end)).
Proof. destruct e as [[l|]]; reflexivity. Qed.

(** C2, as stated, fails on the AAA local-users endpoints: with
    [login_id] unassigned, [path] returns the collection path. *)
Lemma aaa_path_without_login_id :
  Request.unset (Request.AaaLocalUsers EpApiV1InfraAaaLocalUsers.new) = ["login_id"] /\
  Request.path (Request.AaaLocalUsers EpApiV1InfraAaaLocalUsers.new) =
    Ok "/api/v1/infra/aaa/localUsers" /\
  ~ raises_missing (Request.AaaLocalUsers EpApiV1InfraAaaLocalUsers.new).
Proof.
  repeat split.
  intros [f [_ H]]. discriminate H.
Qed.

(** C2, amended: on every OneManage endpoint, reading [path] while an
    identifier (fabric_name, switch_sn, network_name, vrf_name,
    link_uuid) is unassigned raises [ValueError] naming the first such
    identifier, and succeeds once all are assigned; the AAA local-users
    endpoints treat [login_id] as optional and always return a path. *)
Theorem onemanage_path_requires_identifiers :
  (forall (r : Request.t) (f : string) (rest : list string),
      Request.onemanage r = true ->
      Request.unset r = f :: rest ->
      Request.path r = Raise (ValueError (f ++ " must be set before accessing path")) /\
      raises_missing r) /\
  (forall r : Request.t,
      Request.onemanage r = true ->
      Request.unset r = [] ->
      raises (Request.path r) = false) /\
  (forall e : EpApiV1InfraAaaLocalUsers.t,
      raises (Request.path (Request.AaaLocalUsers e)) = false).
Proof.
  split; [|split].
  - intros r f rest Hone Hunset.
    assert (Hpath : Request.path r =
                    Raise (ValueError (f ++ " must be set before accessing path"))).
    { split_request r; split_options; cbn in Hunset |- *;
        try discriminate; injection Hunset as <- <-; reflexivity. }
    split; [exact Hpath|].
    exists f. split; [rewrite Hunset; left; reflexivity | exact Hpath].
  - intros r Hone Hunset.
    split_request r; split_options; cbn in Hunset |- *;
      try discriminate;
      repeat match goal with
             | |- context [if ?b then _ else _] => destruct b
             end; reflexivity.
  - intros e. cbn [Request.path]. rewrite aaa_path_total. reflexivity.
Qed.

Lemma onemanage_path_requires_identifiers_witness :
  Request.path
    (Request.FabricConfigDeploySwitch
       {| EpOneManageFabricConfigDeploySwitch.fabric_name := Some "MyFabric";
          EpOneManageFabricConfigDeploySwitch.switch_sn := None;
          EpOneManageFabricConfigDeploySwitch.query_params :=
            FabricConfigDeployQueryParams.default |}) =
  Raise (ValueError "switch_sn must be set before accessing path").
Proof.
  apply (proj1 onemanage_path_requires_identifiers
           (Request.FabricConfigDeploySwitch
              {| EpOneManageFabricConfigDeploySwitch.fabric_name := Some "MyFabric";
                 EpOneManageFabricConfigDeploySwitch.switch_sn := None;
                 EpOneManageFabricConfigDeploySwitch.query_params :=
                   FabricConfigDeployQueryParams.default |})
           "switch_sn" []); reflexivity.
Defined.

(** ** Assignment *)

Lemma setattr_str_rejects (cfg : ConfigDict) (f : StrField) (s : string) :
  validate_assignment cfg = true ->
  min_length f = Some 1%nat ->
  len s = 0%nat \/ ((64 < len s)%nat /\ max_length f = Some 64%nat) ->
  exists kind, setattr_str Strict cfg f (Some s) = Raise (ValidationError (field_name f) kind).
Proof.
  intros Hcfg Hmin Hbad. unfold setattr_str, validate_str. rewrite Hcfg, Hmin.
  destruct Hbad as [H0 | [H64 Hmax]].
  - rewrite H0. eexists. reflexivity.
  - rewrite Hmax. unfold below, above.
    destruct (Nat.ltb_spec (len s) 1); [lia|].
    destruct (Nat.ltb_spec 64 (len s)); [|lia].
    eexists. reflexivity.
Qed.

Lemma setattr_str_accepts (cfg : ConfigDict) (f : StrField) (s : string) :
  below (min_length f) (len s) = false ->
  above (max_length f) (len s) = false ->
  setattr_str Strict cfg f (Some s) = Ok (Some s).
Proof.
  intros Hmin Hmax. unfold setattr_str, validate_str. rewrite Hmin, Hmax.
  destruct (validate_assignment cfg); reflexivity.
Qed.

Lemma fallback_setattr_str_succeeds (cfg : ConfigDict) (f : StrField) (v : option string) :
  setattr_str Fallback cfg f v = Ok v.
Proof. reflexivity. Qed.

Lemma fallback_setattr_flag_succeeds (cfg : ConfigDict) (name : string) (v : flag) :
  setattr_flag Fallback cfg name v = Ok v.
Proof. reflexivity. Qed.

Lemma every_endpoint_validates_assignment (r : Request.t) :
  validate_assignment (Request.model_config r) = true.
Proof. destruct r; reflexivity. Qed.

Ltac unfold_setter :=
  match goal with
  | |- context [Request.lift _ (?setter Strict _ _)] => unfold Request.lift, setter
  end.

(** C7: on every endpoint model (all enable [validate_assignment]),
    assigning an identifier the empty string, or assigning
    fabric_name, network_name or vrf_name a string longer than 64
    characters, raises a validation failure for that field at the
    assignment itself. *)
Theorem assignment_revalidates_identifiers
  (r : Request.t) (name s : string) (res : result Request.t) :
  Request.set_identifier Strict r name (Some s) = Some res ->
  out_of_constraint name s ->
  validate_assignment (Request.model_config r) = true /\
  exists kind, res = Raise (ValidationError name kind).
Proof.
  intros Hset Hbad. split; [apply every_endpoint_validates_assignment|].
  split_request r; cbn [Request.set_identifier] in Hset;
    repeat match type of Hset with
           | context [String.eqb name ?k] => destruct (String.eqb_spec name k)
           end;
    try discriminate; injection Hset as <-; subst name; unfold_setter;
    match goal with
    | |- context [setattr_str Strict ?cfg ?f (Some s)] =>
        destruct (setattr_str_rejects cfg f s) as [kind Hk];
        [ reflexivity
        | reflexivity
        | destruct Hbad as [H0 | [H64 Hin]];
          [ left; exact H0
          | first [ right; split; [exact H64 | reflexivity]
                  | exfalso; cbn in Hin; intuition discriminate ] ]
        | rewrite Hk; exists kind; reflexivity ]
    end.
Qed.

Lemma assignment_revalidates_identifiers_witness :
  validate_assignment
    (Request.model_config (Request.FabricConfigDeploy EpOneManageFabricConfigDeploy.new)) = true /\
  exists kind,
    Request.lift Request.FabricConfigDeploy
      (EpOneManageFabricConfigDeploy.set_fabric_name Strict
         EpOneManageFabricConfigDeploy.new (Some "")) =
    Raise (ValidationError "fabric_name" kind).
Proof.
  apply (assignment_revalidates_identifiers
           (Request.FabricConfigDeploy EpOneManageFabricConfigDeploy.new)
           "fabric_name" "").
  - reflexivity.
  - left. reflexivity.
Defined.

(** ** The aggregate *)

Lemma collect_kept_fragments (url_encode : bool) (ms : list any) :
  CompositeQueryParams.collect url_encode ms = kept_fragments url_encode ms.
Proof.
  unfold kept_fragments.
  induction ms as [|m ms IH]; [reflexivity|].
  cbn [CompositeQueryParams.collect List.filter List.map].
  destruct (any_is_empty m); cbn [negb List.filter List.map]; [exact IH|].
  destruct (truthy (any_to_query_string m url_encode)); rewrite IH; reflexivity.
Qed.

Lemma collect_nothing (url_encode : bool) (ms : list any) :
  (forall m, In m ms -> any_is_empty m = true \/ any_to_query_string m url_encode = "") ->
  CompositeQueryParams.collect url_encode ms = [].
Proof.
  induction ms as [|m ms IH]; intros H; [reflexivity|].
  cbn [CompositeQueryParams.collect].
  destruct (H m (or_introl eq_refl)) as [He | Hq].
  - rewrite He. apply IH. intros m' Hin. apply H. right. exact Hin.
  - rewrite Hq. cbn [truthy String.eqb negb].
    destruct (any_is_empty m); apply IH; intros m' Hin; apply H; right; exact Hin.
Qed.

(** C4: the aggregate's query string is the "&"-join of the fragments
    of its non-empty models, in order, without the empty fragments; it
    is the empty string when nothing is collected, in particular for an
    aggregate without models; one all-unset model followed by a model
    with max=100 gives exactly [max=100]. *)
Theorem composite_to_query_string_spec :
  (forall c url_encode,
      CompositeQueryParams.to_query_string c url_encode =
      join "&" (kept_fragments url_encode (CompositeQueryParams.groups c))) /\
  (forall c url_encode,
      (forall m, In m (CompositeQueryParams.groups c) ->
                 any_is_empty m = true \/ any_to_query_string m url_encode = "") ->
      CompositeQueryParams.to_query_string c url_encode = "") /\
  (forall url_encode,
      CompositeQueryParams.to_query_string CompositeQueryParams.new url_encode = "") /\
  CompositeQueryParams.to_query_string
    (CompositeQueryParams.add
       (CompositeQueryParams.add CompositeQueryParams.new
          (Pack _ _ LuceneQueryParams.default))
       (Pack _ _ (max_only 100)))
    true = "max=100".
Proof.
  split; [|split; [|split]].
  - intros c url_encode. unfold CompositeQueryParams.to_query_string.
    rewrite collect_kept_fragments. reflexivity.
  - intros c url_encode H. unfold CompositeQueryParams.to_query_string.
    rewrite (collect_nothing _ _ H). reflexivity.
  - reflexivity.
  - reflexivity.
Qed.

Lemma composite_to_query_string_spec_witness :
  CompositeQueryParams.to_query_string
    (CompositeQueryParams.add CompositeQueryParams.new
       (Pack _ _ LuceneQueryParams.default)) true = "".
Proof.
  apply (proj1 (proj2 composite_to_query_string_spec)
           (CompositeQueryParams.add CompositeQueryParams.new
              (Pack _ _ LuceneQueryParams.default)) true).
  intros m [<- | []]. left. reflexivity.
Defined.










(** ** Percent-encoding *)

Lemma unquote_quote_byte (c : ascii) (rest : string) :
  Urllib.unquote (Urllib.quote_byte c ++ rest) = String c (Urllib.unquote rest).
Proof.
  destruct c as [[] [] [] [] [] [] [] []]; reflexivity.
Qed.

Lemma append_assoc (a b c : string) : (a ++ b) ++ c = a ++ (b ++ c).
Proof.
  induction a as [|x a IH]; [reflexivity|].
  change (String x ((a ++ b) ++ c) = String x (a ++ (b ++ c))).
  f_equal. exact IH.
Qed.

Lemma unquote_quote_append (s rest : string) :
  Urllib.unquote (Urllib.quote s ++ rest) = s ++ Urllib.unquote rest.
Proof.
  induction s as [|c s IH]; [reflexivity|].
  change (Urllib.quote (String c s)) with (Urllib.quote_byte c ++ Urllib.quote s).
  rewrite append_assoc, unquote_quote_byte, IH. reflexivity.
Qed.

Lemma append_empty_r (s : string) : s ++ "" = s.
Proof.
  induction s as [|c s IH]; [reflexivity|].
  change (String c (s ++ "") = String c s).
  f_equal. exact IH.
Qed.

(** Decoding undoes encoding, for every string. *)
Lemma unquote_quote (s : string) : Urllib.unquote (Urllib.quote s) = s.
Proof.
  rewrite <- (append_empty_r (Urllib.quote s)), unquote_quote_append.
  apply append_empty_r.
Qed.

Lemma quote_shows_escape (c : ascii) (s : string) :
  has_char c s = true ->
  contains (Urllib.quote_byte c) (Urllib.quote s) = true.
Proof.
  induction s as [|d s IH]; [discriminate|].
  change (Urllib.quote (String d s)) with (Urllib.quote_byte d ++ Urllib.quote s).
  change (has_char c (String d s)) with (Ascii.eqb c d || has_char c s).
  destruct (Ascii.eqb_spec c d) as [->|_]; cbn [orb].
  - intros _. apply contains_prefix, prefix_append.
  - intros H. apply contains_append_r, IH, H.
Qed.

Lemma filter_only_encoded (f : string) :
  LuceneQueryParams.to_query_string (filter_only f) true = "filter=" ++ Urllib.quote f.
Proof. reflexivity. Qed.

Lemma filter_only_raw (f : string) :
  LuceneQueryParams.to_query_string (filter_only f) false = "filter=" ++ f.
Proof. reflexivity. Qed.

(** C5: for a filter containing ":", a space and "*", the encoded
    fragment contains %3A, %20 and %2A and percent-decoding it gives
    back the key followed by the original filter, character for
    character; the non-encoded fragment is that same text, with the
    literal characters, and has a "%" only where the filter has one. *)
Theorem filter_encoding_round_trip (f : string) :
  has_char ":" f = true ->
  has_char " " f = true ->
  has_char "*" f = true ->
  let encoded := LuceneQueryParams.to_query_string (filter_only f) true in
  let raw := LuceneQueryParams.to_query_string (filter_only f) false in
  contains "%3A" encoded = true /\
  contains "%20" encoded = true /\
  contains "%2A" encoded = true /\
  Urllib.unquote encoded = "filter=" ++ f /\
  Urllib.unquote encoded = raw /\
  raw = "filter=" ++ f /\
  has_char ":" raw = true /\ has_char " " raw = true /\ has_char "*" raw = true /\
  has_char "%" raw = has_char "%" f.
Proof.
  intros Hc Hs Ha encoded raw. subst encoded raw.
  rewrite filter_only_encoded, filter_only_raw.
  repeat split.
  - apply contains_append_r. exact (quote_shows_escape ":" f Hc).
  - apply contains_append_r. exact (quote_shows_escape " " f Hs).
  - apply contains_append_r. exact (quote_shows_escape "*" f Ha).
  - change (Urllib.unquote ("filter=" ++ Urllib.quote f))
      with ("filter=" ++ Urllib.unquote (Urllib.quote f)).
    rewrite unquote_quote. reflexivity.
  - change (Urllib.unquote ("filter=" ++ Urllib.quote f))
      with ("filter=" ++ Urllib.unquote (Urllib.quote f)).
    rewrite unquote_quote. reflexivity.
  - exact Hc.
  - exact Hs.
  - exact Ha.
Qed.

Lemma filter_encoding_round_trip_witness :
  let f := "name:Spine* AND role:spine" in
  let encoded := LuceneQueryParams.to_query_string (filter_only f) true in
  let raw := LuceneQueryParams.to_query_string (filter_only f) false in
  contains "%3A" encoded = true /\
  contains "%20" encoded = true /\
  contains "%2A" encoded = true /\
  Urllib.unquote encoded = "filter=" ++ f /\
  Urllib.unquote encoded = raw /\
  raw = "filter=" ++ f /\
  has_char ":" raw = true /\ has_char " " raw = true /\ has_char "*" raw = true /\
  has_char "%" raw = has_char "%" f.
Proof.
  apply (filter_encoding_round_trip "name:Spine* AND role:spine"); reflexivity.
Defined.

(** ** End to end *)

(** C6, as stated, fails in its second half: in the scenario the
    [path] property of the request is not the base path, "?", and the
    composed query string (it lacks the filter model), and the
    [full_url] the demo builds is not either (it carries the encoded
    string). *)
Lemma scenario_path_is_not_the_composed_url :
  EpOneManageFabricConfigDeploySwitch.path
    {| EpOneManageFabricConfigDeploySwitch.fabric_name := Some "MyFabric";
       EpOneManageFabricConfigDeploySwitch.switch_sn := Some "FOC12345678";
       EpOneManageFabricConfigDeploySwitch.query_params :=
         {| FabricConfigDeployQueryParams.force_show_run := FStr "true";
            FabricConfigDeployQueryParams.incl_all_msd_switches :=
              FEnum BooleanStringEnum.FALSE |} |} <>
  Ok (BasePath.onemanage_fabrics ["MyFabric"; "config-deploy"; "FOC12345678"] ++ "?"
      ++ CompositeQueryParams.to_query_string
           (DemoComposite.compose
              {| FabricConfigDeployQueryParams.force_show_run := FStr "true";
                 FabricConfigDeployQueryParams.incl_all_msd_switches :=
                   FEnum BooleanStringEnum.FALSE |}) false) /\
  exists o : DemoComposite.outcome,
    DemoComposite.example_1_basic_composite Strict = Ok o /\
    DemoComposite.full_url o <>
    DemoComposite.base_path o ++ "?" ++ DemoComposite.not_encoded o.
Proof.
  split.
  - vm_compute. discriminate.
  - eexists. split; [reflexivity|]. vm_compute. discriminate.
Qed.

(** C6, amended: with fabric "MyFabric", switch "FOC12345678",
    force_show_run reading "true" (the enum member or the string) and a
    filter model with filter "name:Spine* AND role:spine", max 50 and
    sort "name:asc", the non-encoded composed query string is exactly
    forceShowRun=true&inclAllMSDSwitches=false&filter=name:Spine* AND role:spine&max=50&sort=name:asc;
    the request's [path] property is the joined base path, "?", and the
    request's own two pairs only; the full URL with the filter is the
    one the caller composes, and the demo composes it as the joined
    base path, "?", and the query string built with url_encode=True. *)
Theorem end_to_end_scenario (q : FabricConfigDeployQueryParams.t) :
  flag_text (FabricConfigDeployQueryParams.force_show_run q) = "true" ->
  flag_text (FabricConfigDeployQueryParams.incl_all_msd_switches q) = "false" ->
  CompositeQueryParams.to_query_string (DemoComposite.compose q) false =
    "forceShowRun=true&inclAllMSDSwitches=false&filter=name:Spine* AND role:spine&max=50&sort=name:asc" /\
  EpOneManageFabricConfigDeploySwitch.path
    {| EpOneManageFabricConfigDeploySwitch.fabric_name := Some "MyFabric";
       EpOneManageFabricConfigDeploySwitch.switch_sn := Some "FOC12345678";
       EpOneManageFabricConfigDeploySwitch.query_params := q |} =
    Ok (BasePath.onemanage_fabrics ["MyFabric"; "config-deploy"; "FOC12345678"]
        ++ "?" ++ "forceShowRun=true&inclAllMSDSwitches=false") /\
  BasePath.onemanage_fabrics ["MyFabric"; "config-deploy"; "FOC12345678"] =
    "/appcenter/cisco/ndfc/api/v1/onemanage/fabrics/MyFabric/config-deploy/FOC12345678" /\
  forall fw : framework,
  exists o : DemoComposite.outcome,
    DemoComposite.example_1_basic_composite fw = Ok o /\
    flag_text (FabricConfigDeployQueryParams.force_show_run
                 (EpOneManageFabricConfigDeploySwitch.query_params (DemoComposite.ep o)))
      = "true" /\
    flag_text (FabricConfigDeployQueryParams.incl_all_msd_switches
                 (EpOneManageFabricConfigDeploySwitch.query_params (DemoComposite.ep o)))
      = "false" /\
    DemoComposite.base_path o =
      BasePath.onemanage_fabrics ["MyFabric"; "config-deploy"; "FOC12345678"] /\
    DemoComposite.not_encoded o =
      "forceShowRun=true&inclAllMSDSwitches=false&filter=name:Spine* AND role:spine&max=50&sort=name:asc" /\
    DemoComposite.query_string o =
      "forceShowRun=true&inclAllMSDSwitches=false&filter=name%3ASpine%2A%20AND%20role%3Aspine&max=50&sort=name%3Aasc" /\
    DemoComposite.full_url o =
      DemoComposite.base_path o ++ "?" ++ DemoComposite.query_string o.
Proof.
  intros Hf Hi.
  destruct q as [[[|]|s] [[|]|t]];
    cbn [flag_text BooleanStringEnum.value
         FabricConfigDeployQueryParams.force_show_run
         FabricConfigDeployQueryParams.incl_all_msd_switches] in Hf, Hi;
    try discriminate; try subst s; try subst t;
    (split; [reflexivity|]); (split; [reflexivity|]); (split; [reflexivity|]);
    intros [|]; eexists; (split; [reflexivity|]); repeat split.
Qed.

Lemma end_to_end_scenario_witness :
  CompositeQueryParams.to_query_string
    (DemoComposite.compose
       {| FabricConfigDeployQueryParams.force_show_run := FStr "true";
          FabricConfigDeployQueryParams.incl_all_msd_switches :=
            FEnum BooleanStringEnum.FALSE |}) false =
    "forceShowRun=true&inclAllMSDSwitches=false&filter=name:Spine* AND role:spine&max=50&sort=name:asc" /\
  EpOneManageFabricConfigDeploySwitch.path
    {| EpOneManageFabricConfigDeploySwitch.fabric_name := Some "MyFabric";
       EpOneManageFabricConfigDeploySwitch.switch_sn := Some "FOC12345678";
       EpOneManageFabricConfigDeploySwitch.query_params :=
         {| FabricConfigDeployQueryParams.force_show_run := FStr "true";
            FabricConfigDeployQueryParams.incl_all_msd_switches :=
              FEnum BooleanStringEnum.FALSE |} |} =
    Ok (BasePath.onemanage_fabrics ["MyFabric"; "config-deploy"; "FOC12345678"]
        ++ "?" ++ "forceShowRun=true&inclAllMSDSwitches=false").
Proof.
  destruct (end_to_end_scenario
              {| FabricConfigDeployQueryParams.force_show_run := FStr "true";
                 FabricConfigDeployQueryParams.incl_all_msd_switches :=
                   FEnum BooleanStringEnum.FALSE |} eq_refl eq_refl)
    as (Hq & Hp & _).
  split; [exact Hq | exact Hp].
Defined.

(** In the same scenario the request's own [path] property carries the
    request's own parameters only; the filter model reaches the URL
    through the aggregate, composed by the caller. *)
Lemma scenario_request_path :
  EpOneManageFabricConfigDeploySwitch.path
    {| EpOneManageFabricConfigDeploySwitch.fabric_name := Some "MyFabric";
       EpOneManageFabricConfigDeploySwitch.switch_sn := Some "FOC12345678";
       EpOneManageFabricConfigDeploySwitch.query_params :=
         {| FabricConfigDeployQueryParams.force_show_run := FStr "true";
            FabricConfigDeployQueryParams.incl_all_msd_switches :=
              FEnum BooleanStringEnum.FALSE |} |} =
  Ok "/appcenter/cisco/ndfc/api/v1/onemanage/fabrics/MyFabric/config-deploy/FOC12345678?forceShowRun=true&inclAllMSDSwitches=false".
Proof. reflexivity. Qed.

(** ** pydantic and the fallback classes *)

Lemma setattr_str_strict_value (cfg : ConfigDict) (f : StrField) (v x : option string) :
  setattr_str Strict cfg f v = Ok x -> x = v.
Proof.
  unfold setattr_str, validate_str.
  destruct (validate_assignment cfg); [|congruence].
  destruct v as [s|]; [|congruence].
  destruct (below (min_length f) (len s)); [discriminate|].
  destruct (above (max_length f) (len s)); [discriminate | congruence].
Qed.

Lemma setattr_flag_strict_text (cfg : ConfigDict) (name : string) (v y : flag) :
  setattr_flag Strict cfg name v = Ok y -> flag_text y = flag_text v.
Proof.
  unfold setattr_flag, validate_flag.
  destruct (validate_assignment cfg); [|congruence].
  destruct v as [b|s]; cbn [bind].
  - intros H. injection H as <-. destruct (use_enum_values cfg); reflexivity.
  - destruct (String.eqb_spec s "true") as [->|_]; cbn [bind].
    + intros H. injection H as <-. destruct (use_enum_values cfg); reflexivity.
    + destruct (String.eqb_spec s "false") as [->|_]; cbn [bind]; [|discriminate].
      intros H. injection H as <-. destruct (use_enum_values cfg); reflexivity.
Qed.

(** An assignment pydantic accepts leaves the same serialization as
    the fallback's unchecked assignment. *)
Lemma set_force_show_run_agrees (q q' : FabricConfigDeployQueryParams.t) (v : flag) :
  FabricConfigDeployQueryParams.set_force_show_run Strict q v = Ok q' ->
  exists q'',
    FabricConfigDeployQueryParams.set_force_show_run Fallback q v = Ok q'' /\
    FabricConfigDeployQueryParams.to_query_string q'' =
    FabricConfigDeployQueryParams.to_query_string q'.
Proof.
  unfold FabricConfigDeployQueryParams.set_force_show_run.
  destruct (setattr_flag Strict _ _ v) as [y|e] eqn:E; cbn [bind]; [|discriminate].
  intros H. injection H as <-. eexists. split; [reflexivity|].
  rewrite !deploy_query_string_shape. cbn.
  rewrite (setattr_flag_strict_text _ _ _ _ E). reflexivity.
Qed.

Lemma deploy_path_ext (x : option string) (q q' : FabricConfigDeployQueryParams.t) :
  FabricConfigDeployQueryParams.to_query_string q =
  FabricConfigDeployQueryParams.to_query_string q' ->
  EpOneManageFabricConfigDeploy.path
    {| EpOneManageFabricConfigDeploy.fabric_name := x;
       EpOneManageFabricConfigDeploy.query_params := q |} =
  EpOneManageFabricConfigDeploy.path
    {| EpOneManageFabricConfigDeploy.fabric_name := x;
       EpOneManageFabricConfigDeploy.query_params := q' |}.
Proof.
  intros H. unfold EpOneManageFabricConfigDeploy.path.
  cbn [EpOneManageFabricConfigDeploy.fabric_name EpOneManageFabricConfigDeploy.query_params].
  destruct x; [rewrite H|]; reflexivity.
Qed.

Ltac run_store :=
  cbv [Runtime.run Runtime.one_request Runtime.define_class Runtime.Field_default_factory
       Runtime.instantiate Runtime.setattr_fabric_name Runtime.setattr_force_show_run
       Runtime.path Runtime.getattr_fabric_name Runtime.getattr_query_params
       Runtime.read_instance Runtime.write_instance Runtime.read_params Runtime.write_params
       Runtime.alloc_params Runtime.alloc_instance Runtime.mbind Runtime.ret
       Runtime.lift_result Runtime.empty_store Runtime.next Runtime.params Runtime.instances
       Runtime.own_fabric_name Runtime.own_query_params Runtime.cls_fabric_name
       Runtime.cls_query_params];
  repeat (first [ rewrite lookup_insert_eq
                | rewrite lookup_insert_ne by discriminate
                | rewrite insert_insert_eq ];
          cbv beta iota).

(** With a single request in the store, reading its path amounts to
    the two assignments followed by the class's [path], under either
    framework. *)
Lemma run_one_request (fw : framework) (name : option string) (v : flag) :
  Runtime.run (Runtime.one_request fw name v) =
  bind (setattr_str fw EpOneManageFabricConfigDeploy.model_config
          EndpointMixins.FabricNameMixin name)
    (fun x =>
       bind (FabricConfigDeployQueryParams.set_force_show_run fw
               FabricConfigDeployQueryParams.default v)
         (fun q =>
            EpOneManageFabricConfigDeploy.path
              {| EpOneManageFabricConfigDeploy.fabric_name := x;
                 EpOneManageFabricConfigDeploy.query_params := q |})).
Proof.
  destruct fw; run_store;
    (destruct (setattr_str _ _ _ name) as [x|e]; cbv beta iota; [|reflexivity]);
    run_store;
    (destruct (FabricConfigDeployQueryParams.set_force_show_run _ _ v) as [q|e];
     cbv beta iota; [|reflexivity]);
    run_store; cbv [bind];
    destruct (EpOneManageFabricConfigDeploy.path _); reflexivity.
Qed.

(** One request on its own: whenever pydantic accepts the assignments,
    the fallback computes the same path. *)
Lemma one_request_agrees (name : option string) (v : flag) (p : string) :
  Runtime.run (Runtime.one_request Strict name v) = Ok p ->
  Runtime.run (Runtime.one_request Fallback name v) = Ok p.
Proof.
  rewrite !run_one_request.
  destruct (setattr_str Strict _ _ name) as [x|e] eqn:E1; cbn [bind]; [|discriminate].
  apply setattr_str_strict_value in E1. subst x.
  destruct (FabricConfigDeployQueryParams.set_force_show_run Strict _ v) as [q|e] eqn:E2;
    cbn [bind]; [|discriminate].
  destruct (set_force_show_run_agrees _ _ _ E2) as (q'' & -> & Hq).
  cbn [bind]. intros <-. apply deploy_path_ext, Hq.
Qed.

(** C9 does not hold of the fallback: with two requests of one class,
    setting force_show_run through the first changes the path read
    from the second, because the fallback [Field] built the
    [default_factory] object once, for the class; under pydantic the
    second request keeps its own defaults. *)
Theorem fallback_shares_default_factory_object :
  Runtime.run (Runtime.two_requests Strict) =
    Ok "/appcenter/cisco/ndfc/api/v1/onemanage/fabrics/FabricB/config-deploy?forceShowRun=false&inclAllMSDSwitches=false" /\
  Runtime.run (Runtime.two_requests Fallback) =
    Ok "/appcenter/cisco/ndfc/api/v1/onemanage/fabrics/FabricB/config-deploy?forceShowRun=true&inclAllMSDSwitches=false" /\
  Runtime.run (Runtime.two_requests Fallback) <> Runtime.run (Runtime.two_requests Strict).
Proof.
  assert (Hs : Runtime.run (Runtime.two_requests Strict) =
    Ok "/appcenter/cisco/ndfc/api/v1/onemanage/fabrics/FabricB/config-deploy?forceShowRun=false&inclAllMSDSwitches=false")
    by (vm_compute; reflexivity).
  assert (Hf : Runtime.run (Runtime.two_requests Fallback) =
    Ok "/appcenter/cisco/ndfc/api/v1/onemanage/fabrics/FabricB/config-deploy?forceShowRun=true&inclAllMSDSwitches=false")
    by (vm_compute; reflexivity).
  split; [exact Hs|]. split; [exact Hf|].
  rewrite Hs, Hf. discriminate.
Qed.

(* ================================================================== *)
(** * Further properties of the sources *)
(* ================================================================== *)

(** ** The optional query parameters *)

Lemma append_cons_neq (s : string) (c : ascii) (t : string) : s ++ String c t <> s.
Proof.
  induction s as [|a s IH]; [discriminate|].
  change (String a (s ++ String c t) <> String a s).
  intros H. injection H as H. exact (IH H).
Qed.

Lemma truthy_false (s : string) : truthy s = false -> s = "".
Proof. destruct s; [reflexivity | discriminate]. Qed.

Lemma truthy_true (s : string) : s <> "" -> truthy s = true.
Proof. apply truthy_nonempty. Qed.

(** X1: [FabricConfigPreviewQueryParams.to_query_string] emits each
    flag whose text is non-empty and no other, so "false" is emitted
    like "true": both pairs joined by "&" when both texts are
    non-empty, the one pair alone when the other text is empty, and
    the empty string exactly when both texts are empty. *)
Theorem preview_query_string (q : FabricConfigPreviewQueryParams.t) :
  (flag_text (FabricConfigPreviewQueryParams.force_show_run q) <> "" ->
   flag_text (FabricConfigPreviewQueryParams.show_brief q) <> "" ->
   FabricConfigPreviewQueryParams.to_query_string q =
   "forceShowRun=" ++ flag_text (FabricConfigPreviewQueryParams.force_show_run q)
   ++ "&showBrief=" ++ flag_text (FabricConfigPreviewQueryParams.show_brief q)) /\
  (flag_text (FabricConfigPreviewQueryParams.force_show_run q) <> "" ->
   flag_text (FabricConfigPreviewQueryParams.show_brief q) = "" ->
   FabricConfigPreviewQueryParams.to_query_string q =
   "forceShowRun=" ++ flag_text (FabricConfigPreviewQueryParams.force_show_run q)) /\
  (flag_text (FabricConfigPreviewQueryParams.force_show_run q) = "" ->
   flag_text (FabricConfigPreviewQueryParams.show_brief q) <> "" ->
   FabricConfigPreviewQueryParams.to_query_string q =
   "showBrief=" ++ flag_text (FabricConfigPreviewQueryParams.show_brief q)) /\
  (FabricConfigPreviewQueryParams.to_query_string q = "" <->
   flag_text (FabricConfigPreviewQueryParams.force_show_run q) = "" /\
   flag_text (FabricConfigPreviewQueryParams.show_brief q) = "").
Proof.
  unfold FabricConfigPreviewQueryParams.to_query_string, flag_truthy, append.
  destruct (truthy (flag_text (FabricConfigPreviewQueryParams.force_show_run q))) eqn:Ef;
    destruct (truthy (flag_text (FabricConfigPreviewQueryParams.show_brief q))) eqn:Es;
    repeat match goal with
           | E : truthy ?s = false |- _ => apply truthy_false in E
           | E : truthy ?s = true |- _ => apply truthy_nonempty in E
           end;
    simpl; (split; [|split; [|split]]);
    try (intros Hf Hs; first [reflexivity | congruence]).
  - split; [discriminate | intros [Hf _]; congruence].
  - split; [discriminate | intros [Hf _]; congruence].
  - split; [discriminate | intros [_ Hs]; congruence].
  - split; [intros _; split; assumption | reflexivity].
Qed.

Lemma preview_query_string_witness :
  FabricConfigPreviewQueryParams.to_query_string FabricConfigPreviewQueryParams.default =
  "forceShowRun=false&showBrief=false".
Proof.
  apply (proj1 (preview_query_string FabricConfigPreviewQueryParams.default)); discriminate.
Defined.

(** X2: [LinkByUuidQueryParams.to_query_string] is empty exactly when
    neither cluster name is a non-empty string; a lone destination is
    emitted without a leading "&", and when both are given the source
    pair comes first. *)
Theorem link_query_string :
  (forall q,
      LinkByUuidQueryParams.to_query_string q = "" <->
      truthy_opt (LinkByUuidQueryParams.source_cluster_name q) = false /\
      truthy_opt (LinkByUuidQueryParams.destination_cluster_name q) = false) /\
  (forall c s d e,
      LinkByUuidQueryParams.to_query_string
        {| LinkByUuidQueryParams.source_cluster_name := Some (String c s);
           LinkByUuidQueryParams.destination_cluster_name := Some (String d e) |} =
      "sourceClusterName=" ++ String c s ++ "&destinationClusterName=" ++ String d e) /\
  (forall src d e,
      truthy_opt src = false ->
      LinkByUuidQueryParams.to_query_string
        {| LinkByUuidQueryParams.source_cluster_name := src;
           LinkByUuidQueryParams.destination_cluster_name := Some (String d e) |} =
      "destinationClusterName=" ++ String d e).
Proof.
  split; [|split].
  - intros [[[|c s]|] [[|d e]|]]; cbn; split; try intros [? ?];
      try reflexivity; try discriminate; try (split; reflexivity).
  - intros c s d e. reflexivity.
  - intros [[|c s]|] d e H; try discriminate H; reflexivity.
Qed.

Lemma link_query_string_witness :
  LinkByUuidQueryParams.to_query_string
    {| LinkByUuidQueryParams.source_cluster_name := Some "";
       LinkByUuidQueryParams.destination_cluster_name := Some "nd-cluster-2" |} =
  "destinationClusterName=nd-cluster-2".
Proof.
  apply (proj2 (proj2 link_query_string) (Some "") "n"%char "d-cluster-2"). reflexivity.
Defined.

(** X3: the endpoint parameter models escape nothing: a source cluster
    name that itself contains "&destinationClusterName=" serializes to
    the same query string as the two names given separately. *)
Theorem link_query_string_not_escaped (c : ascii) (s : string) (d : ascii) (e : string) :
  LinkByUuidQueryParams.to_query_string
    {| LinkByUuidQueryParams.source_cluster_name :=
         Some (String c s ++ "&destinationClusterName=" ++ String d e);
       LinkByUuidQueryParams.destination_cluster_name := None |} =
  LinkByUuidQueryParams.to_query_string
    {| LinkByUuidQueryParams.source_cluster_name := Some (String c s);
       LinkByUuidQueryParams.destination_cluster_name := Some (String d e) |}.
Proof.
  unfold LinkByUuidQueryParams.to_query_string, append.
  cbn [LinkByUuidQueryParams.source_cluster_name
       LinkByUuidQueryParams.destination_cluster_name].
  change (String c s ++ "&destinationClusterName=" ++ String d e)
    with (String c (s ++ "&destinationClusterName=" ++ String d e)).
  rewrite !truthy_cons. cbn [app join].
  change (("sourceClusterName=" ++ String c s) ++ "&" ++ "destinationClusterName=" ++ String d e)
    with ("sourceClusterName=" ++ (String c s ++ "&destinationClusterName=" ++ String d e)).
  reflexivity.
Qed.

(** X4: with the fabric name set, the path of the bulk-delete
    endpoints is the bare base path exactly when [network_names]
    (resp. [vrf_names]) is unset or empty; otherwise it is the base
    path, "?", and the hyphenated pair. *)
Theorem bulk_delete_path :
  (forall fabric q,
      EpOneManageNetworksDelete.path
        {| EpOneManageNetworksDelete.fabric_name := Some fabric;
           EpOneManageNetworksDelete.query_params := q |} =
      Ok (BasePath.onemanage_top_down_fabrics [fabric; "bulk-delete"; "networks"]) <->
      truthy_opt (NetworkNamesQueryParams.network_names q) = false) /\
  (forall fabric q,
      EpOneManageVrfsDelete.path
        {| EpOneManageVrfsDelete.fabric_name := Some fabric;
           EpOneManageVrfsDelete.query_params := q |} =
      Ok (BasePath.onemanage_top_down_fabrics [fabric; "bulk-delete"; "vrfs"]) <->
      truthy_opt (VrfNamesQueryParams.vrf_names q) = false) /\
  (forall fabric c s,
      EpOneManageNetworksDelete.path
        {| EpOneManageNetworksDelete.fabric_name := Some fabric;
           EpOneManageNetworksDelete.query_params :=
             {| NetworkNamesQueryParams.network_names := Some (String c s) |} |} =
      Ok (BasePath.onemanage_top_down_fabrics [fabric; "bulk-delete"; "networks"]
          ++ "?network-names=" ++ String c s)) /\
  (forall fabric c s,
      EpOneManageVrfsDelete.path
        {| EpOneManageVrfsDelete.fabric_name := Some fabric;
           EpOneManageVrfsDelete.query_params :=
             {| VrfNamesQueryParams.vrf_names := Some (String c s) |} |} =
      Ok (BasePath.onemanage_top_down_fabrics [fabric; "bulk-delete"; "vrfs"]
          ++ "?vrf-names=" ++ String c s)).
Proof.
  split; [|split; [|split]].
  - intros fabric [[[|c s]|]]; cbn -[BasePath.onemanage_top_down_fabrics]; split;
      try reflexivity; try discriminate.
    intros H. injection H as H. exfalso. exact (append_cons_neq _ _ _ H).
  - intros fabric [[[|c s]|]]; cbn -[BasePath.onemanage_top_down_fabrics]; split;
      try reflexivity; try discriminate.
    intros H. injection H as H. exfalso. exact (append_cons_neq _ _ _ H).
  - reflexivity.
  - reflexivity.
Qed.

(** X5: with the link UUID set, the path of [EpOneManageLinkGetByUuid]
    and of [EpOneManageLinkUpdate] is the bare base path exactly when
    neither cluster name is a non-empty string; no "?" is appended for
    an empty query string. *)
Theorem link_path_bare_iff :
  (forall uuid q,
      EpOneManageLinkGetByUuid.path
        {| EpOneManageLinkGetByUuid.link_uuid := Some uuid;
           EpOneManageLinkGetByUuid.query_params := q |} =
      Ok (BasePath.onemanage_links [uuid]) <->
      truthy_opt (LinkByUuidQueryParams.source_cluster_name q) = false /\
      truthy_opt (LinkByUuidQueryParams.destination_cluster_name q) = false) /\
  (forall uuid q,
      EpOneManageLinkUpdate.path
        {| EpOneManageLinkUpdate.link_uuid := Some uuid;
           EpOneManageLinkUpdate.query_params := q |} =
      Ok (BasePath.onemanage_links [uuid]) <->
      truthy_opt (LinkByUuidQueryParams.source_cluster_name q) = false /\
      truthy_opt (LinkByUuidQueryParams.destination_cluster_name q) = false).
Proof.
  split; intros uuid [[[|c s]|] [[|d e]|]]; cbn -[BasePath.onemanage_links]; split;
    try intros [? ?]; try reflexivity; try discriminate; try (split; reflexivity);
    intros H; injection H as H; exfalso; exact (append_cons_neq _ _ _ H).
Qed.

Lemma preview_shape (q : FabricConfigPreviewQueryParams.t) :
  flag_text (FabricConfigPreviewQueryParams.force_show_run q) <> "" ->
  flag_text (FabricConfigPreviewQueryParams.show_brief q) <> "" ->
  FabricConfigPreviewQueryParams.to_query_string q =
  "forceShowRun=" ++ flag_text (FabricConfigPreviewQueryParams.force_show_run q)
  ++ "&showBrief=" ++ flag_text (FabricConfigPreviewQueryParams.show_brief q).
Proof.
  intros Hf Hs.
  unfold FabricConfigPreviewQueryParams.to_query_string, flag_truthy, append.
  rewrite (truthy_true _ Hf), (truthy_true _ Hs). simpl. reflexivity.
Qed.

(** X6: for a config-preview request whose identifiers are set and
    whose two flags have non-empty text (every enum member has), the
    path is the base path, "?", the [forceShowRun] pair, "&", the
    [showBrief] pair. *)
Theorem config_preview_path_has_query :
  (forall fabric q,
      flag_text (FabricConfigPreviewQueryParams.force_show_run q) <> "" ->
      flag_text (FabricConfigPreviewQueryParams.show_brief q) <> "" ->
      EpOneManageFabricConfigPreview.path
        {| EpOneManageFabricConfigPreview.fabric_name := Some fabric;
           EpOneManageFabricConfigPreview.query_params := q |} =
      Ok (BasePath.onemanage_fabrics [fabric; "config-preview"]
          ++ "?" ++ "forceShowRun="
          ++ flag_text (FabricConfigPreviewQueryParams.force_show_run q)
          ++ "&showBrief=" ++ flag_text (FabricConfigPreviewQueryParams.show_brief q))) /\
  (forall fabric sn q,
      flag_text (FabricConfigPreviewQueryParams.force_show_run q) <> "" ->
      flag_text (FabricConfigPreviewQueryParams.show_brief q) <> "" ->
      EpOneManageFabricConfigPreviewSwitch.path
        {| EpOneManageFabricConfigPreviewSwitch.fabric_name := Some fabric;
           EpOneManageFabricConfigPreviewSwitch.switch_sn := Some sn;
           EpOneManageFabricConfigPreviewSwitch.query_params := q |} =
      Ok (BasePath.onemanage_fabrics [fabric; "config-preview"; sn]
          ++ "?" ++ "forceShowRun="
          ++ flag_text (FabricConfigPreviewQueryParams.force_show_run q)
          ++ "&showBrief=" ++ flag_text (FabricConfigPreviewQueryParams.show_brief q))).
Proof.
  split.
  - intros fabric q Hf Hs.
    cbn [EpOneManageFabricConfigPreview.path EpOneManageFabricConfigPreview.fabric_name
         EpOneManageFabricConfigPreview.query_params].
    rewrite (preview_shape q Hf Hs). reflexivity.
  - intros fabric sn q Hf Hs.
    cbn [EpOneManageFabricConfigPreviewSwitch.path
         EpOneManageFabricConfigPreviewSwitch.fabric_name
         EpOneManageFabricConfigPreviewSwitch.switch_sn
         EpOneManageFabricConfigPreviewSwitch.query_params].
    rewrite (preview_shape q Hf Hs). reflexivity.
Qed.

Lemma config_preview_path_has_query_witness :
  EpOneManageFabricConfigPreview.path
    {| EpOneManageFabricConfigPreview.fabric_name := Some "MyFabric";
       EpOneManageFabricConfigPreview.query_params :=
         FabricConfigPreviewQueryParams.default |} =
  Ok "/appcenter/cisco/ndfc/api/v1/onemanage/fabrics/MyFabric/config-preview?forceShowRun=false&showBrief=false".
Proof.
  apply (proj1 config_preview_path_has_query "MyFabric"
           FabricConfigPreviewQueryParams.default); discriminate.
Defined.

(** ** Identifiers of a request *)

Ltac name_cases H name :=
  repeat match type of H with
         | context [String.eqb name ?k] => destruct (String.eqb_spec name k)
         end.

Lemma raises_lift_bind {A B : Type} (inj : B -> Request.t) (r : result A) (k : A -> B) :
  raises (Request.lift inj (bind r (fun x => Ok (k x)))) = raises r.
Proof. destruct r; reflexivity. Qed.

Lemma setattr_str_strict_iff (cfg : ConfigDict) (f : StrField) (s : string) :
  validate_assignment cfg = true ->
  min_length f = Some 1%nat ->
  max_length f = Some 64%nat \/ max_length f = None ->
  raises (setattr_str Strict cfg f (Some s)) = false <->
  ~ (len s = 0%nat \/ ((64 < len s)%nat /\ max_length f = Some 64%nat)).
Proof.
  intros Hcfg Hmin Hmax. unfold setattr_str, validate_str. rewrite Hcfg, Hmin.
  unfold below.
  destruct (Nat.ltb_spec (len s) 1) as [Hlt|Hge]; cbn [raises].
  - split; [discriminate|]. intros H. exfalso. apply H. left. lia.
  - destruct Hmax as [-> | ->]; unfold above.
    + destruct (Nat.ltb_spec 64 (len s)) as [Hgt|Hle]; cbn [raises].
      * split; [discriminate|]. intros H. exfalso. apply H. right. split; [lia|reflexivity].
      * split; [|reflexivity]. intros _ [H0 | [H64 _]]; lia.
    + cbn [raises]. split; [|reflexivity]. intros _ [H0 | [_ Habs]]; [lia | discriminate].
Qed.

Ltac open_setter_goal :=
  match goal with
  | |- context [Request.lift _ (?setter _ _ _)] => unfold setter
  end.

(** X8: under pydantic, on every endpoint class, assigning a string to
    an identifier is accepted exactly when the string is within the
    declared bounds: at least one character, and at most 64 for
    fabric_name, network_name and vrf_name. *)
Theorem strict_assignment_accepts_iff
  (r : Request.t) (name s : string) (res : result Request.t) :
  Request.set_identifier Strict r name (Some s) = Some res ->
  (raises res = false <-> ~ out_of_constraint name s).
Proof.
  intros H. unfold out_of_constraint.
  split_request r; cbn [Request.set_identifier] in H; name_cases H name;
    try discriminate; injection H as <-; subst name; open_setter_goal;
    rewrite raises_lift_bind;
    match goal with
    | |- context [setattr_str Strict ?cfg ?f (Some s)] =>
        rewrite (setattr_str_strict_iff cfg f s eq_refl eq_refl)
          by (first [left; reflexivity | right; reflexivity])
    end;
    cbn [max_length EndpointMixins.FabricNameMixin EndpointMixins.SwitchSerialNumberMixin
         EndpointMixins.NetworkNameMixin EndpointMixins.VrfNameMixin
         EndpointMixins.LinkUuidMixin EndpointMixins.LoginIdMixin In];
    split; intros Hn [H0 | [H64 Hin]]; apply Hn;
    first [ left; exact H0
          | right; split; [exact H64 | first [reflexivity | tauto]]
          | exfalso; first [discriminate Hin | intuition discriminate] ].
Qed.

Lemma strict_assignment_accepts_iff_witness :
  raises
    (Request.lift Request.FabricDelete
       (EpOneManageFabricDelete.set_fabric_name Strict EpOneManageFabricDelete.new
          (Some "MyFabric"))) = false <->
  ~ out_of_constraint "fabric_name" "MyFabric".
Proof.
  apply (strict_assignment_accepts_iff
           (Request.FabricDelete EpOneManageFabricDelete.new) "fabric_name" "MyFabric").
  reflexivity.
Defined.

(** X9: identifiers are optional fields: on every OneManage endpoint
    and under either framework, assigning [None] to an identifier is
    accepted, and reading [path] afterwards raises. *)
Theorem reset_identifier_then_path_raises
  (fw : framework) (r : Request.t) (name : string) (res : result Request.t) :
  Request.onemanage r = true ->
  Request.set_identifier fw r name None = Some res ->
  exists r', res = Ok r' /\ raises (Request.path r') = true.
Proof.
  intros Hone H.
  split_request r; try discriminate Hone; split_options;
    cbn [Request.set_identifier] in H; name_cases H name;
    try discriminate; injection H as <-; subst name;
    destruct fw; eexists; (split; [reflexivity|]); reflexivity.
Qed.

Lemma reset_identifier_then_path_raises_witness :
  exists r',
    Request.lift Request.LinkUpdate
      (EpOneManageLinkUpdate.set_link_uuid Strict
         {| EpOneManageLinkUpdate.link_uuid := Some "63505f61";
            EpOneManageLinkUpdate.query_params := LinkByUuidQueryParams.default |}
         None) = Ok r' /\
    raises (Request.path r') = true.
Proof.
  apply (reset_identifier_then_path_raises Strict
           (Request.LinkUpdate
              {| EpOneManageLinkUpdate.link_uuid := Some "63505f61";
                 EpOneManageLinkUpdate.query_params := LinkByUuidQueryParams.default |})
           "link_uuid"); reflexivity.
Defined.

(** X10: [path] guards on [is None], not on emptiness: under the
    fallback, where the empty string can be assigned to an identifier,
    a request whose other identifiers are set then yields a path
    instead of the missing-parameter failure; pydantic rejects that
    assignment. *)
Theorem fallback_empty_identifier_reaches_path
  (r r' : Request.t) (name : string) :
  Request.set_identifier Fallback r name (Some "") = Some (Ok r') ->
  (forall n, In n (Request.unset r) -> n = name) ->
  raises (Request.path r') = false /\
  exists kind,
    Request.set_identifier Strict r name (Some "") =
    Some (Raise (ValidationError name kind)).
Proof.
  intros H Hun.
  split_request r; split_options;
    cbn [Request.set_identifier] in H; name_cases H name;
    try discriminate; injection H as <-; subst name;
    cbn in Hun;
    try (exfalso;
         first [ discriminate (Hun _ (or_introl eq_refl))
               | discriminate (Hun _ (or_intror (or_introl eq_refl))) ]);
    (split;
     [ cbn;
       repeat match goal with
              | |- context [if ?b then _ else _] => destruct b
              end; reflexivity
     | eexists; reflexivity ]).
Qed.

Lemma fallback_empty_identifier_reaches_path_witness :
  raises
    (Request.path
       (Request.FabricDelete {| EpOneManageFabricDelete.fabric_name := Some "" |})) = false /\
  exists kind,
    Request.set_identifier Strict (Request.FabricDelete EpOneManageFabricDelete.new)
      "fabric_name" (Some "") =
    Some (Raise (ValidationError "fabric_name" kind)).
Proof.
  apply (fallback_empty_identifier_reaches_path
           (Request.FabricDelete EpOneManageFabricDelete.new)
           (Request.FabricDelete {| EpOneManageFabricDelete.fabric_name := Some "" |})
           "fabric_name").
  - reflexivity.
  - intros n [<- | []]. reflexivity.
Defined.

(** ** Sequences of flag assignments *)

Lemma setattr_flag_strict_wire (name : string) (v y : flag) :
  setattr_flag Strict FabricConfigDeployQueryParams.model_config name v = Ok y ->
  flag_text y = "true" \/ flag_text y = "false".
Proof.
  unfold setattr_flag, validate_flag. cbn [FabricConfigDeployQueryParams.model_config
    ENUM_CONFIG validate_assignment use_enum_values].
  destruct v as [[|]|s]; cbn [bind].
  - intros H. injection H as <-. left. reflexivity.
  - intros H. injection H as <-. right. reflexivity.
  - destruct (String.eqb s "true"); cbn [bind].
    + intros H. injection H as <-. left. reflexivity.
    + destruct (String.eqb s "false"); cbn [bind]; [|discriminate].
      intros H. injection H as <-. right. reflexivity.
Qed.

Lemma assign_all_strict_wire (l : list Assignments.t)
  (q0 q : FabricConfigDeployQueryParams.t) :
  (flag_text (FabricConfigDeployQueryParams.force_show_run q0) = "true" \/
   flag_text (FabricConfigDeployQueryParams.force_show_run q0) = "false") ->
  (flag_text (FabricConfigDeployQueryParams.incl_all_msd_switches q0) = "true" \/
   flag_text (FabricConfigDeployQueryParams.incl_all_msd_switches q0) = "false") ->
  Assignments.assign_all Strict q0 l = Ok q ->
  (flag_text (FabricConfigDeployQueryParams.force_show_run q) = "true" \/
   flag_text (FabricConfigDeployQueryParams.force_show_run q) = "false") /\
  (flag_text (FabricConfigDeployQueryParams.incl_all_msd_switches q) = "true" \/
   flag_text (FabricConfigDeployQueryParams.incl_all_msd_switches q) = "false").
Proof.
  revert q0. induction l as [|a l IH]; intros q0 Hf Hi H.
  - cbn in H. injection H as <-. split; assumption.
  - cbn [Assignments.assign_all] in H.
    destruct (Assignments.assign Strict q0 a) as [q1|e] eqn:E; cbn [bind] in H;
      [|discriminate].
    apply (IH q1); [| |exact H];
      destruct a as [v|v]; cbn [Assignments.assign] in E;
      unfold FabricConfigDeployQueryParams.set_force_show_run,
             FabricConfigDeployQueryParams.set_incl_all_msd_switches in E;
      destruct (setattr_flag Strict _ _ v) as [y|e'] eqn:Ey; cbn [bind] in E;
      try discriminate; injection E as <-;
      cbn [FabricConfigDeployQueryParams.force_show_run
           FabricConfigDeployQueryParams.incl_all_msd_switches];
      first [assumption | exact (setattr_flag_strict_wire _ _ _ Ey)].
Qed.

(** X11: under pydantic, after any sequence of accepted assignments to
    the two flags of a fresh [FabricConfigDeployQueryParams], the query
    string is one of the four combinations of true and false; no other
    text can reach the wire. *)
Theorem strict_assignments_keep_wire_values
  (l : list Assignments.t) (q : FabricConfigDeployQueryParams.t) :
  Assignments.assign_all Strict FabricConfigDeployQueryParams.default l = Ok q ->
  In (FabricConfigDeployQueryParams.to_query_string q)
     [ "forceShowRun=true&inclAllMSDSwitches=true";
       "forceShowRun=true&inclAllMSDSwitches=false";
       "forceShowRun=false&inclAllMSDSwitches=true";
       "forceShowRun=false&inclAllMSDSwitches=false" ].
Proof.
  intros H.
  destruct (assign_all_strict_wire l FabricConfigDeployQueryParams.default q
              (or_intror eq_refl) (or_intror eq_refl) H)
    as [[Hf|Hf] [Hi|Hi]];
    rewrite deploy_query_string_shape, Hf, Hi; cbn; tauto.
Qed.

Lemma strict_assignments_keep_wire_values_witness :
  In (FabricConfigDeployQueryParams.to_query_string
        {| FabricConfigDeployQueryParams.force_show_run := FStr "true";
           FabricConfigDeployQueryParams.incl_all_msd_switches := FStr "false" |})
     [ "forceShowRun=true&inclAllMSDSwitches=true";
       "forceShowRun=true&inclAllMSDSwitches=false";
       "forceShowRun=false&inclAllMSDSwitches=true";
       "forceShowRun=false&inclAllMSDSwitches=false" ].
Proof.
  apply (strict_assignments_keep_wire_values
           [ Assignments.ForceShowRun (FEnum BooleanStringEnum.TRUE);
             Assignments.InclAllMsdSwitches (FStr "true");
             Assignments.InclAllMsdSwitches (FStr "false") ]).
  reflexivity.
Defined.



(** ** The fallback [BaseModel] *)


(** ** Requests in the store *)

Ltac run_scenario :=
  cbv [Runtime.run RuntimeScenarios.flag_through_first RuntimeScenarios.untouched
       RuntimeScenarios.name_through_first
       Runtime.define_class Runtime.Field_default_factory
       Runtime.instantiate Runtime.setattr_fabric_name Runtime.setattr_force_show_run
       Runtime.path Runtime.getattr_fabric_name Runtime.getattr_query_params
       Runtime.read_instance Runtime.write_instance Runtime.read_params Runtime.write_params
       Runtime.alloc_params Runtime.alloc_instance Runtime.mbind Runtime.ret
       Runtime.lift_result Runtime.empty_store Runtime.next Runtime.params Runtime.instances
       Runtime.own_fabric_name Runtime.own_query_params Runtime.cls_fabric_name
       Runtime.cls_query_params];
  repeat (first [ rewrite lookup_insert_eq
                | rewrite lookup_insert_ne by (discriminate || lia)
                | rewrite insert_insert_eq ];
          cbv beta iota).

Lemma run_untouched (fw : framework) (name : option string) :
  Runtime.run (RuntimeScenarios.untouched fw name) =
  bind (setattr_str fw EpOneManageFabricConfigDeploy.model_config
          EndpointMixins.FabricNameMixin name)
    (fun x =>
       EpOneManageFabricConfigDeploy.path
         {| EpOneManageFabricConfigDeploy.fabric_name := x;
            EpOneManageFabricConfigDeploy.query_params :=
              FabricConfigDeployQueryParams.default |}).
Proof.
  destruct fw; run_scenario;
    (destruct (setattr_str _ _ _ name) as [x|e]; cbv beta iota; [|reflexivity]);
    run_scenario; cbv [bind];
    destruct (EpOneManageFabricConfigDeploy.path _); reflexivity.
Qed.

Lemma run_flag_through_first (fw : framework) (name1 name2 : option string) (v : flag) :
  Runtime.run (RuntimeScenarios.flag_through_first fw name1 name2 v) =
  bind (setattr_str fw EpOneManageFabricConfigDeploy.model_config
          EndpointMixins.FabricNameMixin name1)
    (fun _ =>
       bind (setattr_str fw EpOneManageFabricConfigDeploy.model_config
               EndpointMixins.FabricNameMixin name2)
         (fun x =>
            bind (FabricConfigDeployQueryParams.set_force_show_run fw
                    FabricConfigDeployQueryParams.default v)
              (fun q =>
                 EpOneManageFabricConfigDeploy.path
                   {| EpOneManageFabricConfigDeploy.fabric_name := x;
                      EpOneManageFabricConfigDeploy.query_params :=
                        match fw with
                        | Strict => FabricConfigDeployQueryParams.default
                        | Fallback => q
                        end |}))).
Proof.
  destruct fw; run_scenario;
    (destruct (setattr_str _ _ _ name1) as [x1|e]; cbv beta iota; [|reflexivity]);
    run_scenario;
    (destruct (setattr_str _ _ _ name2) as [x2|e]; cbv beta iota; [|reflexivity]);
    run_scenario;
    (destruct (FabricConfigDeployQueryParams.set_force_show_run _ _ v) as [q|e];
     cbv beta iota; [|reflexivity]);
    run_scenario; cbv [bind];
    destruct (EpOneManageFabricConfigDeploy.path _); reflexivity.
Qed.

(** X15: under pydantic two requests of a class never share their
    parameters: whenever the program that assigns a flag through a
    first request and reads the path of a second one succeeds, it
    returns the path the second request has when nothing else is
    touched. *)
Theorem strict_requests_are_independent
  (name1 name2 : option string) (v : flag) (p : string) :
  Runtime.run (RuntimeScenarios.flag_through_first Strict name1 name2 v) = Ok p ->
  Runtime.run (RuntimeScenarios.untouched Strict name2) = Ok p.
Proof.
  rewrite run_flag_through_first, run_untouched.
  destruct (setattr_str Strict _ _ name1) as [x1|e]; cbn [bind]; [|discriminate].
  destruct (setattr_str Strict _ _ name2) as [x2|e]; cbn [bind]; [|discriminate].
  destruct (FabricConfigDeployQueryParams.set_force_show_run Strict _ v) as [q|e];
    cbn [bind]; [|discriminate].
  intros H. exact H.
Qed.

Lemma strict_requests_are_independent_witness :
  Runtime.run (RuntimeScenarios.untouched Strict (Some "FabricB")) =
  Ok "/appcenter/cisco/ndfc/api/v1/onemanage/fabrics/FabricB/config-deploy?forceShowRun=false&inclAllMSDSwitches=false".
Proof.
  apply (strict_requests_are_independent (Some "FabricA") (Some "FabricB")
           (FEnum BooleanStringEnum.TRUE)).
  vm_compute. reflexivity.
Defined.

(** X16: under the fallback the parameters object belongs to the
    class: for any names and any flag value, assigning the flag through
    one request and reading the path of another gives what assigning
    it through that other request itself gives. *)
Theorem fallback_flag_reaches_every_request
  (name1 name2 : option string) (v : flag) :
  Runtime.run (RuntimeScenarios.flag_through_first Fallback name1 name2 v) =
  Runtime.run (Runtime.one_request Fallback name2 v).
Proof.
  rewrite run_flag_through_first, run_one_request. reflexivity.
Qed.

(** X17: identifiers stay with their instance under either framework:
    a fabric name assigned to one request never serves another, whose
    [path] still fails for want of it. *)
Theorem fabric_name_is_per_instance (fw : framework) (name1 : option string) :
  raises (Runtime.run (RuntimeScenarios.name_through_first fw name1)) = true /\
  (raises (setattr_str fw EpOneManageFabricConfigDeploy.model_config
             EndpointMixins.FabricNameMixin name1) = false ->
   Runtime.run (RuntimeScenarios.name_through_first fw name1) =
   Raise (ValueError "fabric_name must be set before accessing path")).
Proof.
  destruct fw; run_scenario;
    (destruct (setattr_str _ _ _ name1) as [x1|e]; cbv beta iota;
     [|split; [reflexivity | discriminate]]);
    run_scenario; split; reflexivity.
Qed.

Lemma fabric_name_is_per_instance_witness :
  Runtime.run (RuntimeScenarios.name_through_first Fallback (Some "FabricA")) =
  Raise (ValueError "fabric_name must be set before accessing path").
Proof.
  apply (proj2 (fabric_name_is_per_instance Fallback (Some "FabricA"))). reflexivity.
Defined.

(** ** Flags under pydantic *)

(** X18: under pydantic, an assignment to either flag of
    [FabricConfigDeployQueryParams] is accepted exactly when the value
    is a member of the enum or one of the strings "true" and "false"
    (case matters); what is stored in that flag is then the plain
    string, whose text is that of the value assigned, and the other
    flag is left as it was. *)
Theorem strict_flag_assignment_accepts_iff
  (q : FabricConfigDeployQueryParams.t) (v : flag) :
  (raises (FabricConfigDeployQueryParams.set_force_show_run Strict q v) = false <->
   flag_text v = "true" \/ flag_text v = "false") /\
  (raises (FabricConfigDeployQueryParams.set_incl_all_msd_switches Strict q v) = false <->
   flag_text v = "true" \/ flag_text v = "false") /\
  (forall q',
      FabricConfigDeployQueryParams.set_force_show_run Strict q v = Ok q' ->
      FabricConfigDeployQueryParams.force_show_run q' = FStr (flag_text v) /\
      FabricConfigDeployQueryParams.incl_all_msd_switches q' =
      FabricConfigDeployQueryParams.incl_all_msd_switches q) /\
  (forall q',
      FabricConfigDeployQueryParams.set_incl_all_msd_switches Strict q v = Ok q' ->
      FabricConfigDeployQueryParams.incl_all_msd_switches q' = FStr (flag_text v) /\
      FabricConfigDeployQueryParams.force_show_run q' =
      FabricConfigDeployQueryParams.force_show_run q).
Proof.
  unfold FabricConfigDeployQueryParams.set_force_show_run,
         FabricConfigDeployQueryParams.set_incl_all_msd_switches,
         setattr_flag, validate_flag.
  cbn [FabricConfigDeployQueryParams.model_config ENUM_CONFIG
       validate_assignment use_enum_values].
  assert (Hs : forall s, s <> "true" -> s <> "false" -> ~ (s = "true" \/ s = "false"))
    by (intros s Ht Hf [H|H]; congruence).
  destruct v as [[|]|s]; cbn [bind raises flag_text BooleanStringEnum.value];
    [ | | destruct (String.eqb_spec s "true") as [->|Ht]; cbn [bind raises];
          [ | destruct (String.eqb_spec s "false") as [->|Hf]; cbn [bind raises] ] ];
    repeat split;
    try match goal with
        | H : Ok _ = Ok _ |- _ => injection H as <-; reflexivity
        end;
    try (intros _; first [left; reflexivity | right; reflexivity]);
    try discriminate;
    try (intros H; exfalso; exact (Hs s Ht Hf H)).
Qed.

Lemma strict_flag_assignment_accepts_iff_witness :
  FabricConfigDeployQueryParams.force_show_run
    {| FabricConfigDeployQueryParams.force_show_run := FStr "true";
       FabricConfigDeployQueryParams.incl_all_msd_switches :=
         FEnum BooleanStringEnum.FALSE |} = FStr (flag_text (FEnum BooleanStringEnum.TRUE)) /\
  FabricConfigDeployQueryParams.incl_all_msd_switches
    {| FabricConfigDeployQueryParams.force_show_run := FStr "true";
       FabricConfigDeployQueryParams.incl_all_msd_switches :=
         FEnum BooleanStringEnum.FALSE |} =
  FabricConfigDeployQueryParams.incl_all_msd_switches FabricConfigDeployQueryParams.default.
Proof.
  apply (proj1 (proj2 (proj2 (strict_flag_assignment_accepts_iff
                                FabricConfigDeployQueryParams.default
                                (FEnum BooleanStringEnum.TRUE))))).
  reflexivity.
Defined.

(** X19: under pydantic a flag read from the parameters can be
    assigned back: after an accepted assignment, assigning the stored
    value again is accepted and changes nothing. *)
Theorem strict_flag_reassignment_is_stable
  (q q' : FabricConfigDeployQueryParams.t) (v : flag) :
  FabricConfigDeployQueryParams.set_force_show_run Strict q v = Ok q' ->
  FabricConfigDeployQueryParams.set_force_show_run Strict q'
    (FabricConfigDeployQueryParams.force_show_run q') = Ok q'.
Proof.
  unfold FabricConfigDeployQueryParams.set_force_show_run, setattr_flag, validate_flag.
  cbn [FabricConfigDeployQueryParams.model_config ENUM_CONFIG
       validate_assignment use_enum_values].
  destruct v as [[|]|s]; cbn [bind];
    [ | | destruct (String.eqb s "true"); cbn [bind];
          [ | destruct (String.eqb s "false"); cbn [bind]; [ | discriminate ] ] ];
    intros H; injection H as <-; reflexivity.
Qed.

Lemma strict_flag_reassignment_is_stable_witness :
  FabricConfigDeployQueryParams.set_force_show_run Strict
    {| FabricConfigDeployQueryParams.force_show_run := FStr "true";
       FabricConfigDeployQueryParams.incl_all_msd_switches :=
         FEnum BooleanStringEnum.FALSE |}
    (FStr "true") =
  Ok {| FabricConfigDeployQueryParams.force_show_run := FStr "true";
        FabricConfigDeployQueryParams.incl_all_msd_switches :=
          FEnum BooleanStringEnum.FALSE |}.
Proof.
  apply (strict_flag_reassignment_is_stable FabricConfigDeployQueryParams.default
           {| FabricConfigDeployQueryParams.force_show_run := FStr "true";
              FabricConfigDeployQueryParams.incl_all_msd_switches :=
                FEnum BooleanStringEnum.FALSE |}
           (FEnum BooleanStringEnum.TRUE)).
  reflexivity.
Defined.

Lemma assign_all_refines (l : list Assignments.t)
  (qs qf q' : FabricConfigDeployQueryParams.t) :
  flag_text (FabricConfigDeployQueryParams.force_show_run qs) =
  flag_text (FabricConfigDeployQueryParams.force_show_run qf) ->
  flag_text (FabricConfigDeployQueryParams.incl_all_msd_switches qs) =
  flag_text (FabricConfigDeployQueryParams.incl_all_msd_switches qf) ->
  Assignments.assign_all Strict qs l = Ok q' ->
  exists q'',
    Assignments.assign_all Fallback qf l = Ok q'' /\
    flag_text (FabricConfigDeployQueryParams.force_show_run q') =
    flag_text (FabricConfigDeployQueryParams.force_show_run q'') /\
    flag_text (FabricConfigDeployQueryParams.incl_all_msd_switches q') =
    flag_text (FabricConfigDeployQueryParams.incl_all_msd_switches q'').
Proof.
  revert qs qf. induction l as [|a l IH]; intros qs qf Hf Hi H.
  - cbn in H. injection H as <-. exists qf. repeat split; assumption.
  - cbn [Assignments.assign_all] in H |- *.
    destruct (Assignments.assign Strict qs a) as [q1|e] eqn:E; cbn [bind] in H;
      [|discriminate].
    destruct a as [v|v]; cbn [Assignments.assign] in E |- *;
      unfold FabricConfigDeployQueryParams.set_force_show_run,
             FabricConfigDeployQueryParams.set_incl_all_msd_switches in E |- *;
      destruct (setattr_flag Strict _ _ v) as [y|e'] eqn:Ey; cbn [bind] in E;
      try discriminate; injection E as <-;
      cbn [setattr_flag bind];
      (eapply IH; [ | | exact H]);
      cbn [FabricConfigDeployQueryParams.force_show_run
           FabricConfigDeployQueryParams.incl_all_msd_switches];
      first [assumption | exact (setattr_flag_strict_text _ _ _ _ Ey)].
Qed.

(** X20: for one parameters object, the fallback refines pydantic on
    accepted input: whenever pydantic accepts a whole sequence of flag
    assignments, the fallback accepts it too and the two resulting
    objects serialize to the same query string. *)
Theorem accepted_assignments_serialize_alike
  (l : list Assignments.t) (q' : FabricConfigDeployQueryParams.t) :
  Assignments.assign_all Strict FabricConfigDeployQueryParams.default l = Ok q' ->
  exists q'',
    Assignments.assign_all Fallback FabricConfigDeployQueryParams.default l = Ok q'' /\
    FabricConfigDeployQueryParams.to_query_string q'' =
    FabricConfigDeployQueryParams.to_query_string q'.
Proof.
  intros H.
  destruct (assign_all_refines l _ FabricConfigDeployQueryParams.default q'
              eq_refl eq_refl H) as (q'' & Hq & Hf & Hi).
  exists q''. split; [exact Hq|].
  rewrite !deploy_query_string_shape, Hf, Hi. reflexivity.
Qed.

Lemma accepted_assignments_serialize_alike_witness :
  exists q'',
    Assignments.assign_all Fallback FabricConfigDeployQueryParams.default
      [ Assignments.ForceShowRun (FEnum BooleanStringEnum.TRUE);
        Assignments.InclAllMsdSwitches (FStr "true") ] = Ok q'' /\
    FabricConfigDeployQueryParams.to_query_string q'' =
    FabricConfigDeployQueryParams.to_query_string
      {| FabricConfigDeployQueryParams.force_show_run := FStr "true";
         FabricConfigDeployQueryParams.incl_all_msd_switches := FStr "true" |}.
Proof.
  apply (accepted_assignments_serialize_alike
           [ Assignments.ForceShowRun (FEnum BooleanStringEnum.TRUE);
             Assignments.InclAllMsdSwitches (FStr "true") ]).
  reflexivity.
Defined.
